(** * WellTrajectoryAI: the multi-page survey merger

    A shallow embedding of the page-to-record pipeline of [main.py]
    ([extract_and_merge_survey], [extract_selected_pages_survey]), of the
    schema of [models/directionalsurvey.py] and of the three Dash callbacks of
    [app.py] that feed and consume it, together with the properties the
    specification states about them.

    Python values are an inductive type; a [dict] is an association list in
    insertion order (the order [json.dumps] writes); exceptions are an error
    monad; the OCR engine and the language model are parameters of a
    section. *)

From Stdlib Require Import ZArith QArith Ascii.
From stdpp Require Import base option list strings sorting.

Local Open Scope string_scope.
Local Open Scope Z_scope.
Local Open Scope list_scope.
Local Open Scope stdpp_scope.
Set Warnings "-register-all".

(** ** Python values *)

(** JSON-like Python values.  A number, int or finite float, is a [VNum]
    holding its exact value.  What [float()] makes of a value, and how
    floats compare, is not computed here: see [float_builtins]. *)
Inductive pyval : Type :=
| VNone
| VBool (b : bool)
| VNum (q : Q)
| VStr (s : string)
| VList (l : list pyval)
| VDict (d : list (string * pyval)).

(** A [dict] with string keys, in insertion order. *)
Abbreviation pydict := (list (string * pyval)).

Inductive exn : Type := IndexError | KeyError | TypeError | AttributeError.

Inductive result (A : Type) : Type :=
| Ok (a : A)
| Raise (e : exn).
Arguments Ok {A} a.
Arguments Raise {A} e.

#[global] Instance result_ret : MRet result := λ A a, Ok a.
#[global] Instance result_bind : MBind result := λ A B f m,
  match m with Ok a => f a | Raise e => Raise e end.
#[global] Instance result_fmap : FMap result := λ A B f m,
  match m with Ok a => Ok (f a) | Raise e => Raise e end.

(** [for x in xs: s = body(s, x)], an exception leaving the loop. *)
Fixpoint for_in {A S : Type} (xs : list A) (body : S → A → result S) (s : S)
  : result S :=
  match xs with
  | [] => Ok s
  | x :: xs' => s' ← body s x; for_in xs' body s'
  end.

Module Py.

(** First binding of [k]; a well-formed dict has at most one. *)
Fixpoint lookup (k : string) (d : pydict) : option pyval :=
  match d with
  | [] => None
  | (k', v) :: d' => if decide (k = k') then Some v else lookup k d'
  end.

(** [d.get(k)] *)
Definition get (k : string) (d : pydict) : pyval := default VNone (lookup k d).

(** [d.get(k, dflt)] *)
Definition get_default (k : string) (dflt : pyval) (d : pydict) : pyval :=
  default dflt (lookup k d).

(** [k in d] *)
Definition contains (k : string) (d : pydict) : bool :=
  match lookup k d with Some _ => true | None => false end.

(** [d[k]] *)
Definition getitem (k : string) (d : pydict) : result pyval :=
  match lookup k d with Some v => Ok v | None => Raise KeyError end.

(** [d[k] = v]: an existing key keeps its position, a new one goes last. *)
Fixpoint setitem (k : string) (v : pyval) (d : pydict) : pydict :=
  match d with
  | [] => [(k, v)]
  | (k', v') :: d' =>
      if decide (k = k') then (k, v) :: d' else (k', v') :: setitem k v d'
  end.

(** [v in [None, ""]] *)
Definition in_none_empty (v : pyval) : bool :=
  match v with
  | VNone => true
  | VStr "" => true
  | _ => false
  end.

(** What [list.extend(v)] iterates over: the items of a list, the
    one-character strings of a str, the keys of a dict; anything else is not
    iterable. *)
Definition iter (v : pyval) : result (list pyval) :=
  match v with
  | VList l => Ok l
  | VStr s => Ok ((λ c, VStr (String c "")) <$> String.list_ascii_of_string s)
  | VDict d => Ok ((λ kv, VStr kv.1) <$> d)
  | VNone | VBool _ | VNum _ => Raise TypeError
  end.

(** [l[i]] with Python's negative indices. *)
Definition index {A : Type} (l : list A) (i : Z) : result A :=
  let n := Z.of_nat (length l) in
  let j := if decide (i < 0) then n + i else i in
  if decide (0 ≤ j < n) then
    match l !! Z.to_nat j with Some x => Ok x | None => Raise IndexError end
  else Raise IndexError.

(** Truth value of a list or dict: non-empty. *)
Definition truthy {A : Type} (l : list A) : bool :=
  match l with [] => false | _ => true end.

(** [sorted(xs, key=...)] on items already paired with their keys: a stable
    sort, so an item goes in front of the first later item whose key is not
    smaller. *)
Section Sorted.
Context {K A : Type} (leb : K → K → bool).

Fixpoint insert_by (k : K) (x : A) (l : list (K * A)) : list (K * A) :=
  match l with
  | [] => [(k, x)]
  | (k', x') :: l' =>
      if leb k k' then (k, x) :: (k', x') :: l'
      else (k', x') :: insert_by k x l'
  end.

Fixpoint sort_keyed (l : list (K * A)) : list (K * A) :=
  match l with
  | [] => []
  | (k, x) :: l' => insert_by k x (sort_keyed l')
  end.
End Sorted.

(** [sorted(zs)] on ints. *)
Definition sorted_ints (zs : list Z) : list Z :=
  snd <$> sort_keyed Z.leb ((λ z, (z, z)) <$> zs).

(** [enumerate(l)] *)
Definition enumerate {A : Type} (l : list A) : list (nat * A) :=
  zip (seq 0 (length l)) l.

(** Truth value of a value. *)
Definition truth (v : pyval) : bool :=
  match v with
  | VNone => false
  | VBool b => b
  | VNum q => negb (Qeq_bool q 0)
  | VStr s => negb (bool_decide (s = ""))
  | VList l => truthy l
  | VDict d => truthy d
  end.

(** [float(v)], [None] when it raises.  [F] stands for Python's floats;
    [num_to_float] is [float] on a number (it rounds to the nearest double
    and raises [OverflowError] on an int too large), [str_to_float] is
    [float] on a string (it raises [ValueError] on one that does not parse,
    and gives NaN or an infinity on one that spells it).  A bool is an
    int. *)
Definition float {F : Type} (num_to_float : Q → option F)
    (str_to_float : string → option F) (v : pyval) : option F :=
  match v with
  | VNum q => num_to_float q
  | VBool b => num_to_float (if b then 1%Q else 0%Q)
  | VStr s => str_to_float s
  | VNone | VList _ | VDict _ => None
  end.

(** [v[0]] *)
Definition first (v : pyval) : result pyval :=
  match v with
  | VList l => index l 0
  | VStr s => (λ c, VStr (String c "")) <$> index (String.list_ascii_of_string s) 0
  | VDict _ => Raise KeyError
  | VNone | VBool _ | VNum _ => Raise TypeError
  end.

(** [v.keys()] *)
Definition keys (v : pyval) : result (list string) :=
  match v with
  | VDict d => Ok (fst <$> d)
  | _ => Raise AttributeError
  end.

End Py.

(** ** The schema ([models/directionalsurvey.py]) *)

Record SurveyPoint : Type := {
  md : Q; inc : Q; azi : Q; tvd : Q; ns : Q; ew : Q
}.

Record DirectionalSurvey : Type := {
  uwi : string;
  survey_points : list SurveyPoint;
  operator : option string;
  vendor : option string;
  contact_info : option string;
  county : option string;
  method : option string;
  north_ref : option string;
  shl_lat : option string;
  shl_lon : option string;
  shl_x : option string;
  shl_y : option string;
  bhl_lat : option string;
  bhl_lon : option string;
  bhl_x : option string;
  bhl_y : option string;
  lease_location : option string;
  job_number : option string;
  map_zone : option string;
  map_system : option string;
  geo_datum : option string;
  system_datum : option string;
  ground_level_elevation : option string;
  datum_elevation : option string;
  date_created : option string
}.

(** An [Optional[str]] field as dumped. *)
Definition dump_opt (o : option string) : pyval :=
  match o with Some s => VStr s | None => VNone end.

(** [SurveyPoint.model_dump()] *)
Definition point_dump (p : SurveyPoint) : pyval :=
  VDict [("md", VNum (md p)); ("inc", VNum (inc p)); ("azi", VNum (azi p));
         ("tvd", VNum (tvd p)); ("ns", VNum (ns p)); ("ew", VNum (ew p))].

(** [DirectionalSurvey.model_dump()]: every declared field, in declaration
    order, nested models dumped too. *)
Definition model_dump (s : DirectionalSurvey) : pydict :=
  [("uwi", VStr (uwi s));
   ("survey_points", VList (point_dump <$> survey_points s));
   ("operator", dump_opt (operator s));
   ("vendor", dump_opt (vendor s));
   ("contact_info", dump_opt (contact_info s));
   ("county", dump_opt (county s));
   ("method", dump_opt (method s));
   ("north_ref", dump_opt (north_ref s));
   ("shl_lat", dump_opt (shl_lat s));
   ("shl_lon", dump_opt (shl_lon s));
   ("shl_x", dump_opt (shl_x s));
   ("shl_y", dump_opt (shl_y s));
   ("bhl_lat", dump_opt (bhl_lat s));
   ("bhl_lon", dump_opt (bhl_lon s));
   ("bhl_x", dump_opt (bhl_x s));
   ("bhl_y", dump_opt (bhl_y s));
   ("lease_location", dump_opt (lease_location s));
   ("job_number", dump_opt (job_number s));
   ("map_zone", dump_opt (map_zone s));
   ("map_system", dump_opt (map_system s));
   ("geo_datum", dump_opt (geo_datum s));
   ("system_datum", dump_opt (system_datum s));
   ("ground_level_elevation", dump_opt (ground_level_elevation s));
   ("datum_elevation", dump_opt (datum_elevation s));
   ("date_created", dump_opt (date_created s))].

(** What [extract_survey_structured] hands to the merger: a validated model
    instance, or a plain Python value (the [{}] of the [except] branch, or
    whatever else the backend returned). *)
Inductive structured : Type :=
| Model (s : DirectionalSurvey)
| Plain (v : pyval).

(** An element of [all_survey_points]: a [SurveyPoint] object taken from a
    model, or a plain value taken from a dict. *)
Inductive sp_item : Type :=
| SPObj (p : SurveyPoint)
| SPVal (v : pyval).

(** [sp.model_dump() if hasattr(sp, "model_dump") else sp] *)
Definition sp_dump (sp : sp_item) : pyval :=
  match sp with SPObj p => point_dump p | SPVal v => v end.

(** ** The merger ([main.py]) *)

Definition metadata_fields : list string :=
  ["uwi"; "operator"; "vendor"; "contact_info"; "county"; "method"; "north_ref";
   "shl_lat"; "shl_lon"; "shl_x"; "shl_y"; "bhl_lat"; "bhl_lon"; "bhl_x"; "bhl_y";
   "lease_location"; "job_number"; "map_system"; "geo_datum"; "system_datum";
   "map_zone"; "ground_level_elevation"; "datum_elevation"; "date_created"].

(** The local variables of the two merging functions.  [range_warnings]
    stands for the ["[WARNING] Page index ... is out of range"] lines written
    to the standard output, by the index they report. *)
Record merge_state : Type := MergeState {
  all_page_texts : list string;
  all_survey_points : list sp_item;
  merged_metadata : pydict;
  range_warnings : list Z
}.

(** [for field in metadata_fields: merged_metadata[field] = None] *)
Definition init_metadata : pydict :=
  fold_left (λ d field, Py.setitem field VNone d) metadata_fields [].

Definition init_state : merge_state :=
  MergeState [] [] init_metadata [].

(** The [if isinstance(structured, DirectionalSurvey) ... elif ... else] of
    the loop body: the extended point list and [page_metadata]. *)
Definition collect_points (structured : structured) (points : list sp_item)
  : result (list sp_item * pydict) :=
  match structured with
  | Model s => Ok (points ++ (SPObj <$> survey_points s), model_dump s)
  | Plain (VDict d) =>
      if Py.contains "survey_points" d then
        v ← Py.getitem "survey_points" d;
        items ← Py.iter v;
        Ok (points ++ (SPVal <$> items), d)
      else Ok (points, [])
  | Plain _ => Ok (points, [])
  end.

(** One round of [for field in metadata_fields]; Python's [and] does not
    read [merged_metadata[field]] when the page has no value. *)
Definition merge_field (page_metadata merged : pydict) (field : string)
  : result pydict :=
  let val := Py.get field page_metadata in
  if negb (Py.in_none_empty val) then
    cur ← Py.getitem field merged;
    if Py.in_none_empty cur then Ok (Py.setitem field val merged) else Ok merged
  else Ok merged.

(** "Merge survey points and metadata": the part of the loop body the two
    functions share word for word. *)
Definition merge_page (structured : structured) (st : merge_state)
  : result merge_state :=
  '(points, page_metadata) ← collect_points structured (all_survey_points st);
  merged ← for_in metadata_fields (merge_field page_metadata) (merged_metadata st);
  Ok (MergeState (all_page_texts st) points merged (range_warnings st)).

(** "Clean up merged metadata and add survey points". *)
Definition finish (st : merge_state) : pydict :=
  let merged :=
    List.filter (λ kv, negb (Py.in_none_empty kv.2)) (merged_metadata st) in
  if Py.truthy (all_survey_points st)
  then Py.setitem "survey_points" (VList (sp_dump <$> all_survey_points st)) merged
  else merged.

Definition newline : string := String (Ascii.ascii_of_nat 10) "".

(** [merge_text_blocks] *)
Definition merge_text_blocks {P : Type} (text_blocks : list (P * string)) : string :=
  String.concat newline (snd <$> text_blocks).

Section Pipeline.

(** A page ([pages_data[i]] or a PIL image), a text polygon, the OCR engine
    with the decoding of the page in front of it, and the language-model
    call, which returns a value or raises ([None]).  Both engines are taken
    as functions of their input; writing the debug files is left out. *)
Context {page polygon : Type}.
Variable detect_and_ocr : page → list (polygon * string).
Variable text_to_llm : string → option structured.

(** [extract_survey_structured] *)
Definition extract_survey_structured (text : string) : structured :=
  match text_to_llm text with
  | Some structured => structured
  | None => Plain (VDict [])
  end.

(** The loop body from the OCR call on. *)
Definition process_page (st : merge_state) (img : page) : result merge_state :=
  let text_blocks := detect_and_ocr img in
  let all_text := merge_text_blocks text_blocks in
  let st := MergeState (all_page_texts st ++ [all_text]) (all_survey_points st)
              (merged_metadata st) (range_warnings st) in
  let structured := extract_survey_structured all_text in
  merge_page structured st.

Definition merge_all_loop (images : list page) : result merge_state :=
  for_in images process_page init_state.

(** [extract_and_merge_survey], from the rendered [images] on. *)
Definition extract_and_merge_survey (images : list page) : result pydict :=
  st ← merge_all_loop images; Ok (finish st).

Definition selected_body (pages_data : list page) (st : merge_state)
    (page_idx : Z) : result merge_state :=
  if page_idx >=? Z.of_nat (length pages_data) then
    Ok (MergeState (all_page_texts st) (all_survey_points st)
          (merged_metadata st) (range_warnings st ++ [page_idx]))
  else
    page_data ← Py.index pages_data page_idx;
    process_page st page_data.

Definition selected_loop (pages_data : list page)
    (selected_page_indices : list Z) : result merge_state :=
  for_in selected_page_indices (selected_body pages_data) init_state.

(** [extract_selected_pages_survey] *)
Definition extract_selected_pages_survey (pages_data : list page)
    (selected_page_indices : list Z) : result pydict :=
  st ← selected_loop pages_data selected_page_indices; Ok (finish st).

(** The OCR text of one page, and what the pipeline makes of the page. *)
Definition page_text (img : page) : string :=
  merge_text_blocks (detect_and_ocr img).

Definition page_outcome (img : page) : structured :=
  extract_survey_structured (page_text img).

End Pipeline.

(** ** The callbacks of [app.py] *)

(** A callback output: [no_update], or a new value of the property. *)
Inductive dash_output (A : Type) : Type :=
| no_update
| set_to (a : A).
Arguments no_update {A}.
Arguments set_to {A} a.

(** The loop of [update_page_selection_from_checkboxes]: the page indices
    of the checked boxes, in the order of the boxes; an id is given by its
    ["index"] entry. *)
Definition checked_page_indices (checkbox_values : list bool)
    (checkbox_ids : list Z) : list Z :=
  omap (λ '(i, is_checked),
          if is_checked && bool_decide (i < length checkbox_ids)%nat
          then checkbox_ids !! i else None)
       (Py.enumerate checkbox_values).

(** [update_page_selection_from_checkboxes] *)
Definition update_page_selection_from_checkboxes {page : Type}
    (checkbox_values : list bool) (checkbox_ids : list Z)
    (pages_data : list page) : list Z :=
  if negb (Py.truthy pages_data) then []
  else
    let selected_pages := checked_page_indices checkbox_values checkbox_ids in
    Py.sorted_ints selected_pages.

(** [update_survey_from_table] *)
Definition update_survey_from_table (table_data survey : pyval) : result pyval :=
  if Py.truth survey && negb (match table_data with VNone => true | _ => false end)
  then
    match survey with
    | VDict d => Ok (VDict (Py.setitem "survey_points" table_data d))
    | _ => Raise TypeError
    end
  else Ok survey.

(** Python's floats and the two builtins the table's sort calls on them,
    taken as given: [pyfloat] is the type of floats (doubles, with NaN and
    the infinities); [float_of_num] and [float_of_str] are [float()] on a
    number and on a string, [None] when it raises; [sort_by_key] is what
    [sorted] does to items that carry their float keys.  The order it
    leaves them in is the interpreter's: with keys that tie or do not
    compare (NaN) it need not be ascending. *)
Record float_builtins : Type := FloatBuiltins {
  pyfloat : Type;
  float_of_num : Q → option pyfloat;
  float_of_str : string → option pyfloat;
  sort_by_key : list (pyfloat * pyval) → list (pyfloat * pyval)
}.

(** [sorted] returns the items it was given, in some order. *)
Definition sort_permutes (builtins : float_builtins) : Prop :=
  ∀ l, sort_by_key builtins l ≡ₚ l.

Section App.

Context {page polygon : Type}.
Variable detect_and_ocr : page → list (polygon * string).
Variable text_to_llm : string → option structured.
(** [float] and [sorted], and [str] on an exception. *)
Variable builtins : float_builtins.
Variable exn_str : exn → string.

(** [lambda x: float(x.get("md", 0))], [None] when it raises. *)
Definition md_key (x : pyval) : option (pyfloat builtins) :=
  match x with
  | VDict d =>
      Py.float (float_of_num builtins) (float_of_str builtins)
        (Py.get_default "md" (VNum 0) d)
  | _ => None
  end.

(** [sorted(points, key=lambda x: float(x.get("md", 0)))], [None] when it
    raises: the keys are all computed before the sort, and comparing floats
    does not raise. *)
Definition sorted_by_md (points : pyval) : option (list pyval) :=
  match Py.iter points with
  | Ok items =>
      keys ← mapM md_key items;
      Some (snd <$> sort_by_key builtins (zip keys items))
  | Raise _ => None
  end.

(** "Prepare table columns and data for survey points": [table_columns]
    (by the column names) and [table_data]. *)
Definition survey_table (survey : pydict) : result (list string * pyval) :=
  if Py.truthy survey && Py.contains "survey_points" survey then
    points ← Py.getitem "survey_points" survey;
    if Py.truth points then
      let table_data :=
        match sorted_by_md points with
        | Some rows => VList rows
        | None => points
        end in
      first ← Py.first points;
      table_columns ← Py.keys first;
      Ok (table_columns, table_data)
    else Ok ([], VList [])
  else Ok ([], VList []).

(** The outputs of [process_selected_pages] to ["survey-store".data],
    ["survey-table".columns] and ["survey-table".data]; the form fields
    and the button are left out. *)
Record process_outputs : Type := ProcessOutputs {
  out_survey : dash_output pyval;
  out_table_columns : dash_output (list string);
  out_table_data : dash_output pyval
}.

(** [process_selected_pages] *)
Definition process_selected_pages (n_clicks : option Z)
    (pages_data : list page) (selected_pages : list Z) : process_outputs :=
  if negb (match n_clicks with Some n => negb (n =? 0) | None => false end)
     || negb (Py.truthy pages_data) || negb (Py.truthy selected_pages)
  then ProcessOutputs no_update no_update no_update
  else
    match
      survey ← extract_selected_pages_survey detect_and_ocr text_to_llm
                 pages_data selected_pages;
      table ← survey_table survey;
      Ok (survey, table)
    with
    | Ok (survey, (table_columns, table_data)) =>
        ProcessOutputs (set_to (VDict survey)) (set_to table_columns)
          (set_to table_data)
    | Raise e =>
        ProcessOutputs (set_to (VDict [("error", VStr (exn_str e))]))
          no_update no_update
    end.

(** The two component properties the callbacks above share. *)
Record stores : Type := Stores {
  survey_store : pyval;
  survey_table_data : pyval
}.

Definition write {A : Type} (o : dash_output A) (old : A) : A :=
  match o with no_update => old | set_to a => a end.

(** A click on ["process-selected-btn"].  [process_selected_pages] has
    [Output("survey-store", "data")] and [Output("survey-table", "data")];
    [update_survey_from_table] has [Input("survey-table", "data")],
    [State("survey-store", "data")] and [Output("survey-store", "data")]:
    a write to the table's data calls it, and what it returns is
    written to the store (nothing, if it raises). *)
Definition click_process_selected (n_clicks : option Z)
    (pages_data : list page) (selected_pages : list Z) (s : stores) : stores :=
  let o := process_selected_pages n_clicks pages_data selected_pages in
  let s1 := Stores (write (out_survey o) (survey_store s))
              (write (out_table_data o) (survey_table_data s)) in
  match out_table_data o with
  | no_update => s1
  | set_to table_data =>
      match update_survey_from_table table_data (survey_store s1) with
      | Ok survey => Stores survey (survey_table_data s1)
      | Raise _ => s1
      end
  end.

End App.

(** ** The extraction backend *)

(** The fields [DirectionalSurvey] declares, in declaration order, and those
    of [SurveyPoint]. *)
Definition declared_fields : list string :=
  ["uwi"; "survey_points"; "operator"; "vendor"; "contact_info"; "county";
   "method"; "north_ref"; "shl_lat"; "shl_lon"; "shl_x"; "shl_y"; "bhl_lat";
   "bhl_lon"; "bhl_x"; "bhl_y"; "lease_location"; "job_number"; "map_zone";
   "map_system"; "geo_datum"; "system_datum"; "ground_level_elevation";
   "datum_elevation"; "date_created"].

Definition point_fields : list string := ["md"; "inc"; "azi"; "tvd"; "ns"; "ew"].

(** [extra = "forbid"]: every key is a declared field. *)
Definition no_extra_fields (fields : list string) (d : pydict) : bool :=
  forallb (λ kv, bool_decide (kv.1 ∈ fields)) d.

Definition required_float (v : option pyval) : option Q :=
  match v with Some (VNum q) => Some q | _ => None end.

Definition required_str (v : option pyval) : option string :=
  match v with Some (VStr s) => Some s | _ => None end.

(** An optional field: absent or null gives an explicit null. *)
Definition optional_str (v : option pyval) : option (option string) :=
  match v with
  | None | Some VNone => Some None
  | Some (VStr s) => Some (Some s)
  | Some _ => None
  end.

(** Modelled from the spec: the validation of one survey point against the
    closed [SurveyPoint] schema, done inside [text_to_llm]
    ([services/llm.py], not among the sources): all six fields required and
    numeric, any other field rejected. *)
Definition validate_point (v : pyval) : option SurveyPoint :=
  match v with
  | VDict d =>
      if no_extra_fields point_fields d then
        md ← required_float (Py.lookup "md" d);
        inc ← required_float (Py.lookup "inc" d);
        azi ← required_float (Py.lookup "azi" d);
        tvd ← required_float (Py.lookup "tvd" d);
        ns ← required_float (Py.lookup "ns" d);
        ew ← required_float (Py.lookup "ew" d);
        Some (Build_SurveyPoint md inc azi tvd ns ew)
      else None
  | _ => None
  end.

Definition required_points (v : option pyval) : option (list SurveyPoint) :=
  match v with Some (VList l) => mapM validate_point l | _ => None end.

(** Modelled from the spec: the validation of the backend's output against
    the closed [DirectionalSurvey] schema, done inside [text_to_llm]
    ([services/llm.py], not among the sources): "all required fields
    present and correctly typed; optional fields absent are represented as
    explicit nulls"; "any field not declared in the schema fails the whole
    record". *)
Definition validate (raw : pydict) : option DirectionalSurvey :=
  if no_extra_fields declared_fields raw then
    uwi ← required_str (Py.lookup "uwi" raw);
    survey_points ← required_points (Py.lookup "survey_points" raw);
    operator ← optional_str (Py.lookup "operator" raw);
    vendor ← optional_str (Py.lookup "vendor" raw);
    contact_info ← optional_str (Py.lookup "contact_info" raw);
    county ← optional_str (Py.lookup "county" raw);
    method ← optional_str (Py.lookup "method" raw);
    north_ref ← optional_str (Py.lookup "north_ref" raw);
    shl_lat ← optional_str (Py.lookup "shl_lat" raw);
    shl_lon ← optional_str (Py.lookup "shl_lon" raw);
    shl_x ← optional_str (Py.lookup "shl_x" raw);
    shl_y ← optional_str (Py.lookup "shl_y" raw);
    bhl_lat ← optional_str (Py.lookup "bhl_lat" raw);
    bhl_lon ← optional_str (Py.lookup "bhl_lon" raw);
    bhl_x ← optional_str (Py.lookup "bhl_x" raw);
    bhl_y ← optional_str (Py.lookup "bhl_y" raw);
    lease_location ← optional_str (Py.lookup "lease_location" raw);
    job_number ← optional_str (Py.lookup "job_number" raw);
    map_zone ← optional_str (Py.lookup "map_zone" raw);
    map_system ← optional_str (Py.lookup "map_system" raw);
    geo_datum ← optional_str (Py.lookup "geo_datum" raw);
    system_datum ← optional_str (Py.lookup "system_datum" raw);
    ground_level_elevation ← optional_str (Py.lookup "ground_level_elevation" raw);
    datum_elevation ← optional_str (Py.lookup "datum_elevation" raw);
    date_created ← optional_str (Py.lookup "date_created" raw);
    Some (Build_DirectionalSurvey uwi survey_points operator vendor contact_info
            county method north_ref shl_lat shl_lon shl_x shl_y bhl_lat bhl_lon
            bhl_x bhl_y lease_location job_number map_zone map_system geo_datum
            system_datum ground_level_elevation datum_elevation date_created)
  else None.

(** Modelled from the spec: [text_to_llm] of [services/llm.py], which is not
    among the sources: "given a target schema and input text, return an
    instance of that schema or fail".  [backend] is the language model's raw
    answer to a text ([None]: the call failed); the answer is an instance
    when it is a dict that passes [validate], and the call raises
    otherwise. *)
Definition text_to_llm_model (backend : string → option pyval) (text : string)
  : option structured :=
  raw ← backend text;
  match raw with
  | VDict d => Model <$> validate d
  | _ => None
  end.

(** ** Vocabulary of the specification *)

(** A dict given by its key list and a value for each key. *)
Definition tabulate (ks : list string) (g : string → pyval) : pydict :=
  (λ k, (k, g k)) <$> ks.

(** "A page that succeeded extraction": the loop body takes one of its first
    two branches. *)
Definition extraction_succeeded (s : structured) : bool :=
  match s with
  | Model _ => true
  | Plain (VDict d) => Py.contains "survey_points" d
  | Plain _ => false
  end.

(** The loop body does not raise on the page. *)
Definition page_ok (s : structured) : bool :=
  match collect_points s [] with Ok _ => true | Raise _ => false end.

(** The items a page adds to [all_survey_points], and its [page_metadata]. *)
Definition page_points (s : structured) : list sp_item :=
  match collect_points s [] with Ok (points, _) => points | Raise _ => [] end.

Definition page_metadata (s : structured) : pydict :=
  match collect_points s [] with Ok (_, meta) => meta | Raise _ => [] end.

(** The point list of a page, as the merged record shows it. *)
Definition page_point_list (s : structured) : list pyval :=
  sp_dump <$> page_points s.

(** The point list of a page outcome, read off the outcome alone: the
    points of a model instance, each as the dict of its six fields; for a
    dict with a ["survey_points"] key, the items of a list held there (of
    a str, its characters; of a dict, its keys); no point for any other
    outcome. *)
Definition declared_points (s : structured) : list pyval :=
  match s with
  | Model m => point_dump <$> survey_points m
  | Plain (VDict d) =>
      match Py.lookup "survey_points" d with
      | Some (VList l) => l
      | Some (VStr t) => (λ c, VStr (String c "")) <$> String.list_ascii_of_string t
      | Some (VDict d') => (λ kv, VStr kv.1) <$> d'
      | Some (VNone | VBool _ | VNum _) | None => []
      end
  | Plain _ => []
  end.

(** What a dict outcome holds under ["survey_points"], if anything, is a
    list, a str or a dict. *)
Definition points_iterable (s : structured) : bool :=
  match s with
  | Plain (VDict d) =>
      match Py.lookup "survey_points" d with
      | Some (VNone | VBool _ | VNum _) => false
      | _ => true
      end
  | _ => true
  end.

(** The non-null, non-empty value a page provides for a field, if any. *)
Definition provided (field : string) (s : structured) : option pyval :=
  let val := Py.get field (page_metadata s) in
  if Py.in_none_empty val then None else Some val.

(** The value of the first page, in page order, that provides one. *)
Fixpoint first_provided (field : string) (outcomes : list structured)
  : option pyval :=
  match outcomes with
  | [] => None
  | s :: outcomes' =>
      match provided field s with
      | Some v => Some v
      | None => first_provided field outcomes'
      end
  end.

(** The point list of a record as its consumers read it:
    [survey.get("survey_points", [])]. *)
Definition survey_points_of (survey : pydict) : pyval :=
  Py.get_default "survey_points" (VList []) survey.

(** The accumulators hold what the pages [outcomes] merge to. *)
Definition merged_of (outcomes : list structured) (st : merge_state) : Prop :=
  all_survey_points st = concat (page_points <$> outcomes) ∧
  merged_metadata st =
    tabulate metadata_fields (λ f, default VNone (first_provided f outcomes)).

(** The record the pages [outcomes] merge to, in closed form. *)
Definition merged_record (outcomes : list structured) : pydict :=
  let meta :=
    List.filter (λ kv, negb (Py.in_none_empty kv.2))
      (tabulate metadata_fields (λ f, default VNone (first_provided f outcomes))) in
  let points := concat (page_points <$> outcomes) in
  if Py.truthy points
  then meta ++ [("survey_points", VList (sp_dump <$> points))]
  else meta.

(** The pages a selection makes take part, in the order of the selection:
    those of the indices that pass the range guard and index the list. *)
Definition selected_pages {page : Type} (pages_data : list page)
    (selected_page_indices : list Z) : list page :=
  omap (λ page_idx,
          if page_idx >=? Z.of_nat (length pages_data) then None
          else match Py.index pages_data page_idx with
               | Ok page_data => Some page_data
               | Raise _ => None
               end)
       selected_page_indices.

(** No index is below [-len(pages_data)]. *)
Definition indices_ok {page : Type} (pages_data : list page)
    (selected_page_indices : list Z) : Prop :=
  Forall (λ page_idx, - Z.of_nat (length pages_data) ≤ page_idx)
    selected_page_indices.

(** What the implicit contract of the two merging functions says of the
    record [merged] they return for the pages [outcomes]. *)
Definition record_invariant (outcomes : list structured) (merged : pydict)
  : Prop :=
  (∀ k v, (k, v) ∈ merged → v ≠ VNone ∧ v ≠ VStr "") ∧
  (Py.contains "survey_points" merged = true ↔
   ∃ s, s ∈ outcomes ∧ page_point_list s ≠ []) ∧
  (∀ v, Py.lookup "survey_points" merged = Some v → ∃ l, v = VList l ∧ l ≠ []) ∧
  (Forall (λ s, extraction_succeeded s = false) outcomes → merged = []).

(** ** Sample documents *)

Definition survey_of (uwi : string) (points : list SurveyPoint)
  : DirectionalSurvey :=
  Build_DirectionalSurvey uwi points None None None None None None None None
    None None None None None None None None None None None None None None None.

Definition station (md : Z) : SurveyPoint :=
  Build_SurveyPoint (inject_Z md) 0 0 0 0 0.

(** The two pages of the specification's example, and a third page whose
    stations are not in depth order. *)
Definition P1 : DirectionalSurvey := survey_of "ABC" [].
Definition P2 : DirectionalSurvey := survey_of "XYZ" [station 100].
Definition P3 : DirectionalSurvey := survey_of "" [station 200; station 100].

(** A sample pipeline: a page is the name written on it, which the OCR
    reads as one block; the model knows the three pages and fails on any
    other text. *)
Definition sample_ocr (page : string) : list (unit * string) := [(tt, page)].

Definition sample_llm (text : string) : option structured :=
  if decide (text = "P1") then Some (Model P1)
  else if decide (text = "P2") then Some (Model P2)
  else if decide (text = "P3") then Some (Model P3)
  else None.

(** Two keyed items are in the order of their keys. *)
Definition keys_le {K A : Type} (leb : K → K → bool) (p q : K * A) : Prop :=
  leb p.1 q.1 = true.

(** The three-page sample document. *)
Definition sample_pages : list string := ["P1"; "P2"; "P3"].

(** What page P2 alone and page P3 alone merge to, and the rows of P3 in
    depth order. *)
Definition P2_record : pydict :=
  [("uwi", VStr "XYZ"); ("survey_points", VList [point_dump (station 100)])].

Definition P3_record : pydict :=
  [("survey_points", VList [point_dump (station 200); point_dump (station 100)])].

Definition P3_rows : list pyval :=
  [point_dump (station 100); point_dump (station 200)].

(** A backend whose answer has a field the schema does not declare. *)
Definition sample_backend (text : string) : option pyval :=
  Some (VDict [("uwi", VStr "ABC"); ("survey_points", VList []);
               ("well_name", VStr "Smith 1H")]).

(** The builtins on the sample documents, whose depths are small whole
    numbers: [float()] keeps such a number as it is, and [sorted] puts them
    in ascending order, equal keys in the order given.  None of their
    strings is read as a float.  Exceptions have no message. *)
Definition sample_builtins : float_builtins :=
  {| pyfloat := Q;
     float_of_num := Some;
     float_of_str := λ _, None;
     sort_by_key := Py.sort_keyed Qle_bool |}.
Definition sample_exn_str (e : exn) : string := "".

(** What [merge_field] leaves under a field that held [cur]. *)
Definition merged_value (page_metadata : pydict) (field : string) (cur : pyval)
  : pyval :=
  let val := Py.get field page_metadata in
  if negb (Py.in_none_empty val) && Py.in_none_empty cur then val else cur.

(** ** More of [main.py] and [app.py] *)

(** [list(range(n))] *)
Definition py_range (n : nat) : list Z := Z.of_nat <$> seq 0 n.

(** [select_deselect_all], by its outputs to the checkboxes' values and to
    ["selected-pages-store".data]; [triggered] is the button id read from
    [ctx.triggered[0]], [None] when nothing triggered the callback. *)
Definition select_deselect_all {page : Type} (triggered : option string)
    (pages_data : list page) : dash_output (list bool) * dash_output (list Z) :=
  if negb (Py.truthy pages_data) then (set_to [], set_to [])
  else
    match triggered with
    | None => (no_update, no_update)
    | Some button_id =>
        let total_pages := length pages_data in
        if decide (button_id = "select-all-btn")
        then (set_to (replicate total_pages true), set_to (py_range total_pages))
        else (set_to (replicate total_pages false), set_to [])
    end.

(** The [meta_keys] of [process_selected_pages], which are the [keys] of
    [update_metadata]. *)
Definition form_keys : list string :=
  ["uwi"; "operator"; "vendor"; "lease_location"; "county"; "contact_info";
   "map_zone"; "map_system"; "geo_datum"; "system_datum";
   "shl_x"; "shl_y"; "datum_elevation"; "ground_level_elevation"; "job_number";
   "date_created"].

(** The [form_values] of [process_selected_pages]:
    [[survey.get(k, "") if survey else "" for k in meta_keys]]. *)
Definition process_form_values (survey : pydict) : list pyval :=
  (λ k, if Py.truthy survey then Py.get_default k (VStr "") survey else VStr "")
  <$> form_keys.

(** [survey[k] = v] on a value: only a dict takes it. *)
Definition py_setitem (k : string) (v survey : pyval) : result pyval :=
  match survey with
  | VDict d => Ok (VDict (Py.setitem k v d))
  | _ => Raise TypeError
  end.

(** The outputs of [update_metadata]: the store, the table's columns and
    data, and the button colour. *)
Record metadata_outputs : Type := MetadataOutputs {
  meta_survey : dash_output pyval;
  meta_table_columns : dash_output (list string);
  meta_table_data : dash_output pyval;
  meta_color : dash_output string
}.

(** [update_metadata]; the pause is left out, and an exception leaves the
    callback. *)
Definition update_metadata (builtins : float_builtins)
    (n_clicks : option Z) (survey : pyval) (form_values : list pyval)
  : result metadata_outputs :=
  if negb (match n_clicks with Some n => negb (n =? 0) | None => false end)
     || negb (Py.truth survey)
  then Ok (MetadataOutputs no_update no_update no_update no_update)
  else
    survey ← for_in (zip form_keys form_values)
               (λ survey kv, py_setitem kv.1 kv.2 survey) survey;
    table ← match survey with
            | VDict d => survey_table builtins d
            | _ => Ok ([], VList [])
            end;
    Ok (MetadataOutputs (set_to survey) (set_to table.1) (set_to table.2)
          (set_to "info")).

(** The column order [download_csv] gives the DataFrame before [to_csv],
    from [df.columns] of [pd.DataFrame(survey_points)]: the canonical columns
    that exist, then the others; ["uwi"] inserted in front, which pandas
    refuses ([None], a ValueError) when the column exists; then each
    metadata field, appended unless the column exists. *)
Definition desired_columns : list string := ["md"; "inc"; "azi"; "tvd"; "ns"; "ew"].

Definition csv_metadata_fields : list string :=
  ["operator"; "vendor"; "lease_location"; "county"; "contact_info";
   "map_zone"; "map_system"; "geo_datum"; "system_datum";
   "shl_x"; "shl_y"; "datum_elevation"; "ground_level_elevation";
   "job_number"; "date_created"].

Definition csv_columns (df_columns : list string) : option (list string) :=
  let existing_columns :=
    List.filter (λ col, bool_decide (col ∈ df_columns)) desired_columns in
  let other_columns :=
    List.filter (λ col, negb (bool_decide (col ∈ desired_columns))) df_columns in
  let final_columns := existing_columns ++ other_columns in
  let columns := if Py.truthy existing_columns then final_columns else df_columns in
  if bool_decide ("uwi" ∈ columns) then None
  else
    Some (fold_left
            (λ columns field,
               if bool_decide (field ∈ columns) then columns
               else columns ++ [field])
            csv_metadata_fields ("uwi" :: columns)).

(** [s.replace(old, new)] for one-character [old] and [new]. *)
Fixpoint py_replace (old new : Ascii.ascii) (s : string) : string :=
  match s with
  | EmptyString => EmptyString
  | String c s' =>
      String (if decide (c = old) then new else c) (py_replace old new s')
  end.

(** [.replace("/", "_").replace("\\", "_").replace(" ", "_")] *)
Definition safe_name (s : string) : string :=
  py_replace (" " : Ascii.ascii) ("_" : Ascii.ascii)
    (py_replace ("\" : Ascii.ascii) ("_" : Ascii.ascii)
       (py_replace ("/" : Ascii.ascii) ("_" : Ascii.ascii) s)).

(** The uwi part of the file name in [write_to_geodatabase_via_file]:
    [survey_data.get("uwi", "unknown").replace(...)]. *)
Definition geodatabase_uwi (survey_data : pydict) : result string :=
  match Py.get_default "uwi" (VStr "unknown") survey_data with
  | VStr s => Ok (safe_name s)
  | _ => Raise AttributeError
  end.

(** The uwi part of the browser file name in [download_csv]:
    [uwi.replace(...) if uwi else "survey"] with
    [uwi = survey.get("uwi", "survey")]. *)
Definition csv_safe_uwi (survey : pydict) : result string :=
  let uwi := Py.get_default "uwi" (VStr "survey") survey in
  if Py.truth uwi then
    match uwi with
    | VStr s => Ok (safe_name s)
    | _ => Raise AttributeError
    end
  else Ok "survey".

(** The [export_data["survey_data"]] of [write_to_geodatabase_via_file] and
    the [survey_points] of [download_csv] are [survey_points_of] below. *)

(** Two results agree up to a relation on what they return. *)
Definition result_rel {A B : Type} (R : A → B → Prop)
    (x : result A) (y : result B) : Prop :=
  match x, y with
  | Ok a, Ok b => R a b
  | Raise e, Raise e' => e = e'
  | _, _ => False
  end.

(** The two accumulators the returned record is made of. *)
Definition same_core (st st' : merge_state) : Prop :=
  all_survey_points st = all_survey_points st' ∧
  merged_metadata st = merged_metadata st'.

(** * Properties *)

(** ** Dicts *)

Section DictFacts.
Implicit Types (k : string) (v : pyval) (d : pydict) (g : string → pyval).

Lemma lookup_None_keys k d : Py.lookup k d = None ↔ k ∉ d.*1.
Proof.
  induction d as [|[k' v'] d IH]; simpl.
  - split; [intros _; apply not_elem_of_nil | done].
  - rewrite not_elem_of_cons. destruct (decide (k = k')); naive_solver.
Qed.

Lemma lookup_setitem_eq k v d : Py.lookup k (Py.setitem k v d) = Some v.
Proof.
  induction d as [|[k' v'] d IH]; simpl.
  - by rewrite decide_True.
  - destruct (decide (k = k')) as [->|Hne]; simpl.
    + by rewrite decide_True.
    + by rewrite decide_False.
Qed.

Lemma lookup_setitem_ne k k' v d :
  k ≠ k' → Py.lookup k' (Py.setitem k v d) = Py.lookup k' d.
Proof.
  intros Hne. induction d as [|[k0 v0] d IH]; simpl.
  - by rewrite decide_False.
  - destruct (decide (k = k0)) as [->|]; simpl.
    + by rewrite !decide_False.
    + by rewrite IH.
Qed.

Lemma setitem_fresh k v d : k ∉ d.*1 → Py.setitem k v d = d ++ [(k, v)].
Proof.
  induction d as [|[k' v'] d IH]; simpl; [done|].
  rewrite not_elem_of_cons. intros [Hne Hd].
  rewrite decide_False by done. by rewrite IH.
Qed.

Lemma tabulate_keys ks g : (tabulate ks g).*1 = ks.
Proof. unfold tabulate. rewrite <- list_fmap_compose. apply list_fmap_id. Qed.

Lemma tabulate_ext ks g g' :
  (∀ k, k ∈ ks → g k = g' k) → tabulate ks g = tabulate ks g'.
Proof.
  intros H. apply list_fmap_ext. intros i k Hk. f_equal.
  apply H. by eapply list_elem_of_lookup_2.
Qed.

Lemma lookup_tabulate ks g k :
  Py.lookup k (tabulate ks g) = if decide (k ∈ ks) then Some (g k) else None.
Proof.
  induction ks as [|k' ks IH]; simpl; [done|].
  - destruct (decide (k = k')) as [->|Hne].
    + by rewrite decide_True by left.
    + rewrite IH. destruct (decide (k ∈ ks)).
      * by rewrite decide_True by by right.
      * rewrite decide_False; [done|]. rewrite elem_of_cons. naive_solver.
Qed.

Lemma setitem_tabulate ks g k v :
  NoDup ks → k ∈ ks →
  Py.setitem k v (tabulate ks g) =
  tabulate ks (λ k', if decide (k' = k) then v else g k').
Proof.
  induction 1 as [|k' ks Hk' Hnd IH]; intros Hin; [by apply elem_of_nil in Hin|].
  simpl. destruct (decide (k = k')) as [->|Hne].
  - rewrite decide_True by done. f_equal.
    apply tabulate_ext. intros k Hk. rewrite decide_False; [done|].
    by intros ->.
  - rewrite decide_False by done. f_equal. apply IH.
    apply elem_of_cons in Hin. naive_solver.
Qed.

Lemma lookup_filter_tabulate (P : string * pyval → bool) ks g k :
  Py.lookup k (List.filter P (tabulate ks g)) =
  if decide (k ∈ ks) then (if P (k, g k) then Some (g k) else None) else None.
Proof.
  induction ks as [|k' ks IH]; simpl; [done|].
  - destruct (decide (k = k')) as [->|Hne].
    + rewrite decide_True by left.
      destruct (P (k', g k')) eqn:HP; simpl.
      * by rewrite decide_True.
      * rewrite IH. by destruct (decide (k' ∈ ks)).
    + assert (Py.lookup k (List.filter P (tabulate ks g)) =
              Py.lookup k (if P (k', g k') then (k', g k') :: List.filter P (tabulate ks g)
                           else List.filter P (tabulate ks g))) as <-.
      { destruct (P (k', g k')); simpl; [by rewrite decide_False | done]. }
      rewrite IH. destruct (decide (k ∈ ks)).
      * by rewrite decide_True by by right.
      * rewrite decide_False; [done|]. rewrite elem_of_cons. naive_solver.
Qed.

Lemma filter_tabulate_keys (P : string * pyval → bool) ks g k :
  k ∈ (List.filter P (tabulate ks g)).*1 → k ∈ ks.
Proof.
  intros Hk. destruct (decide (k ∈ ks)) as [|Hn]; [done|].
  apply lookup_None_keys in Hk; [done|].
  rewrite lookup_filter_tabulate. by rewrite decide_False.
Qed.

Lemma metadata_fields_NoDup : NoDup metadata_fields.
Proof. apply (bool_decide_unpack _). by vm_compute. Qed.

Lemma init_metadata_tabulate :
  init_metadata = tabulate metadata_fields (λ _, VNone).
Proof. reflexivity. Qed.

End DictFacts.

(** ** One page *)

Arguments tabulate : simpl never.
Arguments metadata_fields : simpl never.

Section MergeFacts.
Implicit Types (s : structured) (st : merge_state) (os : list structured).

Lemma collect_points_ok s points :
  page_ok s →
  collect_points s points = Ok (points ++ page_points s, page_metadata s).
Proof.
  unfold page_ok, page_points, page_metadata.
  destruct s as [m|v]; simpl; [done|].
  destruct v as [| | | | |d]; simpl; try by rewrite app_nil_r.
  destruct (Py.contains "survey_points" d); simpl; [|by rewrite app_nil_r].
  destruct (Py.getitem "survey_points" d) as [v|]; simpl; [|done].
  destruct (Py.iter v); simpl; done.
Qed.

Lemma merge_field_tabulate pm g f :
  f ∈ metadata_fields →
  merge_field pm (tabulate metadata_fields g) f =
  Ok (tabulate metadata_fields
        (λ k, if decide (k = f) then merged_value pm f (g f) else g k)).
Proof.
  intros Hf. unfold merge_field, merged_value, Py.getitem.
  rewrite lookup_tabulate, decide_True by done.
  destruct (Py.in_none_empty (Py.get f pm)); cbn.
  - f_equal. apply tabulate_ext. intros k _. by destruct (decide (k = f)) as [->|].
  - destruct (Py.in_none_empty (g f)).
    + f_equal. apply setitem_tabulate; [apply metadata_fields_NoDup | done].
    + f_equal. apply tabulate_ext. intros k _. by destruct (decide (k = f)) as [->|].
Qed.

Lemma merge_fields_tabulate pm fs : ∀ g,
  NoDup fs → fs ⊆ metadata_fields →
  for_in fs (merge_field pm) (tabulate metadata_fields g) =
  Ok (tabulate metadata_fields
        (λ k, if decide (k ∈ fs) then merged_value pm k (g k) else g k)).
Proof.
  induction fs as [|f fs IH]; intros g Hnd Hsub; simpl.
  - f_equal.
  - apply NoDup_cons in Hnd as [Hf Hnd].
    rewrite merge_field_tabulate by (apply Hsub; left).
    simpl. rewrite IH; [|done|by intros k Hk; apply Hsub; right].
    f_equal. apply tabulate_ext. intros k _.
    destruct (decide (k = f)) as [->|Hne].
    + rewrite decide_False by done. by rewrite decide_True by left.
    + destruct (decide (k ∈ fs)).
      * by rewrite decide_True by by right.
      * rewrite decide_False; [done|]. rewrite elem_of_cons. naive_solver.
Qed.

Lemma provided_nonempty f s v : provided f s = Some v → Py.in_none_empty v = false.
Proof.
  unfold provided. destruct (Py.in_none_empty _) eqn:E; [done|]. by intros [= <-].
Qed.

Lemma first_provided_nonempty f os v :
  first_provided f os = Some v → Py.in_none_empty v = false.
Proof.
  induction os as [|s os IH]; simpl; [done|].
  destruct (provided f s) eqn:E; [|done]. intros [= <-]. by eapply provided_nonempty.
Qed.

Lemma first_provided_app f os os' :
  first_provided f (os ++ os') =
  match first_provided f os with
  | Some v => Some v
  | None => first_provided f os'
  end.
Proof.
  induction os as [|s os IH]; simpl; [done|]. by destruct (provided f s).
Qed.

Lemma merged_value_first f os s :
  merged_value (page_metadata s) f (default VNone (first_provided f os)) =
  default VNone (first_provided f (os ++ [s])).
Proof.
  rewrite first_provided_app. simpl. unfold merged_value.
  destruct (first_provided f os) as [v|] eqn:E; simpl.
  - rewrite (first_provided_nonempty _ _ _ E). by rewrite andb_false_r.
  - unfold provided.
    by destruct (Py.in_none_empty (Py.get f (page_metadata s))).
Qed.

(** The shared part of the loop body appends the page to what the
    accumulators stand for and touches nothing else. *)
Lemma merge_page_step os s st :
  merged_of os st → page_ok s →
  ∃ st', merge_page s st = Ok st' ∧ merged_of (os ++ [s]) st' ∧
         all_page_texts st' = all_page_texts st ∧
         range_warnings st' = range_warnings st.
Proof.
  intros [Hp Hm] Hok. unfold merge_page.
  rewrite collect_points_ok by done. cbn. rewrite Hm.
  rewrite merge_fields_tabulate by (apply metadata_fields_NoDup || done).
  cbn. eexists. split; [done|]. repeat split; cbn.
  - rewrite Hp, fmap_app, concat_app. cbn. by rewrite app_nil_r.
  - apply tabulate_ext. intros f Hf. rewrite decide_True by done.
    apply merged_value_first.
Qed.

Lemma merged_of_init : merged_of [] init_state.
Proof. split; [done|]. apply init_metadata_tabulate. Qed.

Lemma finish_merged_of os st : merged_of os st → finish st = merged_record os.
Proof.
  intros [Hp Hm]. unfold finish, merged_record. rewrite Hp, Hm.
  destruct (concat (page_points <$> os)) as [|p ps] eqn:E; unfold Py.truthy;
    [reflexivity|].
  apply setitem_fresh. intros Hin. apply filter_tabulate_keys in Hin.
  revert Hin. apply (bool_decide_unpack _). by vm_compute.
Qed.

End MergeFacts.

(** ** The merged record *)

Section RecordFacts.
Implicit Types (os : list structured) (d : pydict).

Lemma lookup_app k d d' :
  Py.lookup k (d ++ d') =
  match Py.lookup k d with Some v => Some v | None => Py.lookup k d' end.
Proof.
  induction d as [|[k' v'] d IH]; cbn; [done|]. by destruct (decide (k = k')).
Qed.

Lemma survey_points_not_metadata : "survey_points" ∉ metadata_fields.
Proof. apply (bool_decide_unpack _). by vm_compute. Qed.

Lemma lookup_merged_metadata os f :
  Py.lookup f
    (List.filter (λ kv, negb (Py.in_none_empty kv.2))
       (tabulate metadata_fields (λ f, default VNone (first_provided f os)))) =
  if decide (f ∈ metadata_fields) then first_provided f os else None.
Proof.
  rewrite lookup_filter_tabulate. destruct (decide (f ∈ metadata_fields)); [|done].
  cbn. destruct (first_provided f os) as [v|] eqn:E; cbn; [|done].
  by rewrite (first_provided_nonempty _ _ _ E).
Qed.

Lemma lookup_merged_record_field os f :
  f ∈ metadata_fields → Py.lookup f (merged_record os) = first_provided f os.
Proof.
  intros Hf. unfold merged_record.
  assert (f ≠ "survey_points") as Hne.
  { intros ->. by apply survey_points_not_metadata. }
  destruct (Py.truthy _).
  - rewrite lookup_app, lookup_merged_metadata, decide_True by done.
    destruct (first_provided f os); [done|]. cbn. by rewrite decide_False.
  - by rewrite lookup_merged_metadata, decide_True.
Qed.

Lemma lookup_merged_record_points os :
  Py.lookup "survey_points" (merged_record os) =
  match concat (page_points <$> os) with
  | [] => None
  | points => Some (VList (sp_dump <$> points))
  end.
Proof.
  unfold merged_record.
  destruct (concat (page_points <$> os)) as [|p ps]; unfold Py.truthy.
  - rewrite lookup_merged_metadata.
    by rewrite decide_False by apply survey_points_not_metadata.
  - rewrite lookup_app, lookup_merged_metadata.
    rewrite decide_False by apply survey_points_not_metadata.
    cbn. by rewrite decide_True.
Qed.

Lemma merged_record_keys os k :
  k ∈ (merged_record os).*1 → k ∈ metadata_fields ∨ k = "survey_points".
Proof.
  unfold merged_record. destruct (Py.truthy _).
  - rewrite fmap_app, elem_of_app. intros [H|H].
    + left. by eapply filter_tabulate_keys.
    + right. cbn in H. by apply list_elem_of_singleton in H.
  - intros H. left. by eapply filter_tabulate_keys.
Qed.

Lemma merged_record_values os k v :
  (k, v) ∈ merged_record os → Py.in_none_empty v = false.
Proof.
  unfold merged_record. intros H.
  assert ((k, v) ∈ List.filter (λ kv, negb (Py.in_none_empty kv.2))
            (tabulate metadata_fields (λ f, default VNone (first_provided f os)))
          ∨ ∃ l, v = VList l) as [Hin|[l ->]]; [| |done].
  { destruct (Py.truthy _); [|by left].
    apply elem_of_app in H as [H|H]; [by left|right].
    apply list_elem_of_singleton in H. injection H as _ ->. by eexists. }
  apply list_elem_of_In, filter_In in Hin as [_ Hv]. cbn in Hv.
  by apply negb_true_iff in Hv.
Qed.

Lemma merged_record_nil os :
  Forall (λ s, extraction_succeeded s = false) os → merged_record os = [].
Proof.
  intros Hall.
  assert (∀ s, extraction_succeeded s = false →
               collect_points s [] = Ok ([], [])) as Hcp.
  { intros [m|v]; cbn; [done|]. destruct v; cbn; try done. by intros ->. }
  assert (concat (page_points <$> os) = []) as Hp.
  { induction Hall as [|s os Hs _ IH]; [done|]. cbn.
    unfold page_points at 1. by rewrite (Hcp _ Hs). }
  assert (∀ f, first_provided f os = None) as Hf.
  { intros f. clear Hp. induction Hall as [|s os Hs _ IH]; [done|]. cbn.
    unfold provided, page_metadata. by rewrite (Hcp _ Hs). }
  unfold merged_record. rewrite Hp. unfold Py.truthy.
  erewrite tabulate_ext; [|intros f _; by rewrite Hf]. by vm_compute.
Qed.

End RecordFacts.

(** ** The two loops *)

Section PipelineFacts.

Context {page polygon : Type}.
Variable detect_and_ocr : page → list (polygon * string).
Variable text_to_llm : string → option structured.

Abbreviation run_page := (process_page detect_and_ocr text_to_llm).
Abbreviation outcome := (page_outcome detect_and_ocr text_to_llm).
Abbreviation text_of := (page_text detect_and_ocr).
Abbreviation run_index := (selected_body detect_and_ocr text_to_llm).

Lemma process_page_step os st p :
  merged_of os st → page_ok (outcome p) →
  ∃ st', run_page st p = Ok st' ∧ merged_of (os ++ [outcome p]) st' ∧
         all_page_texts st' = all_page_texts st ++ [text_of p] ∧
         range_warnings st' = range_warnings st.
Proof.
  intros Hm Hok. unfold process_page.
  set (st1 := MergeState _ _ _ _).
  assert (merged_of os st1) as Hm1 by exact Hm.
  destruct (merge_page_step os _ st1 Hm1 Hok) as (st' & Hrun & Hm' & Ht & Hw).
  exists st'. split; [exact Hrun|]. split; [exact Hm'|].
  split; [exact Ht | exact Hw].
Qed.

Lemma process_pages_run ps : ∀ os st,
  merged_of os st → Forall (λ p, page_ok (outcome p)) ps →
  ∃ st', for_in ps run_page st = Ok st' ∧
         merged_of (os ++ (outcome <$> ps)) st' ∧
         all_page_texts st' = all_page_texts st ++ (text_of <$> ps) ∧
         range_warnings st' = range_warnings st.
Proof.
  induction ps as [|p ps IH]; intros os st Hm Hok.
  - exists st. cbn. by rewrite !app_nil_r.
  - apply Forall_cons in Hok as [Hp Hps].
    destruct (process_page_step os st p Hm Hp) as (st1 & Hrun & Hm1 & Ht & Hw).
    destruct (IH _ _ Hm1 Hps) as (st' & Hrun' & Hm' & Ht' & Hw').
    exists st'. cbn. rewrite Hrun. cbn. split; [done|].
    rewrite <- app_assoc in Hm'. split; [done|].
    rewrite Ht', Ht, Hw', Hw, <- app_assoc. done.
Qed.

Lemma index_in_range (pages_data : list page) i :
  - Z.of_nat (length pages_data) ≤ i → i < Z.of_nat (length pages_data) →
  ∃ p, Py.index pages_data i = Ok p ∧
       pages_data !! Z.to_nat (if decide (i < 0)
                               then Z.of_nat (length pages_data) + i else i)
       = Some p.
Proof.
  intros Hlo Hhi. unfold Py.index. cbn zeta.
  set (j := if decide (i < 0) then _ else _).
  assert (0 ≤ j < Z.of_nat (length pages_data)) as Hj.
  { unfold j. destruct (decide (i < 0)); lia. }
  rewrite decide_True by done.
  destruct (lookup_lt_is_Some_2 pages_data (Z.to_nat j)) as [p Hp]; [lia|].
  exists p. by rewrite Hp.
Qed.

Lemma selected_body_skip (pages_data : list page) st i :
  (i >=? Z.of_nat (length pages_data)) = true →
  run_index pages_data st i =
  Ok (MergeState (all_page_texts st) (all_survey_points st)
        (merged_metadata st) (range_warnings st ++ [i])).
Proof. intros H. unfold selected_body. by rewrite H. Qed.

Lemma selected_body_take (pages_data : list page) st i p :
  (i >=? Z.of_nat (length pages_data)) = false →
  Py.index pages_data i = Ok p →
  run_index pages_data st i = run_page st p.
Proof. intros H Hp. unfold selected_body. by rewrite H, Hp. Qed.

Lemma selected_pages_skip (pages_data : list page) i sel :
  (i >=? Z.of_nat (length pages_data)) = true →
  selected_pages pages_data (i :: sel) = selected_pages pages_data sel.
Proof. intros H. unfold selected_pages. cbn. by rewrite H. Qed.

Lemma selected_pages_take (pages_data : list page) i sel p :
  (i >=? Z.of_nat (length pages_data)) = false →
  Py.index pages_data i = Ok p →
  selected_pages pages_data (i :: sel) = p :: selected_pages pages_data sel.
Proof. intros H Hp. unfold selected_pages. cbn. by rewrite H, Hp. Qed.

Lemma selected_run pages_data sel : ∀ os st,
  merged_of os st → indices_ok pages_data sel →
  Forall (λ p, page_ok (outcome p)) (selected_pages pages_data sel) →
  ∃ st', for_in sel (run_index pages_data) st = Ok st' ∧
         merged_of (os ++ (outcome <$> selected_pages pages_data sel)) st' ∧
         all_page_texts st' =
           all_page_texts st ++ (text_of <$> selected_pages pages_data sel) ∧
         range_warnings st' =
           range_warnings st ++
           List.filter (λ i, i >=? Z.of_nat (length pages_data)) sel.
Proof.
  induction sel as [|i sel IH]; intros os st Hm Hidx Hok.
  - exists st. cbn. by rewrite !app_nil_r.
  - apply Forall_cons in Hidx as [Hi Hidx].
    cbn [for_in List.filter].
    destruct (i >=? Z.of_nat (length pages_data)) eqn:Hge.
    + rewrite selected_pages_skip in * by done.
      rewrite selected_body_skip by done.
      set (st1 := MergeState _ _ _ _).
      assert (merged_of os st1) as Hm1 by exact Hm.
      destruct (IH _ _ Hm1 Hidx Hok) as (st' & Hrun' & Hm' & Ht' & Hw').
      exists st'. cbn. split; [done|]. split; [done|]. split; [done|].
      rewrite Hw'. cbn. by rewrite <- app_assoc.
    + assert (i < Z.of_nat (length pages_data)) as Hlt.
      { rewrite Z.geb_leb in Hge. by apply Z.leb_gt in Hge. }
      destruct (index_in_range pages_data i Hi Hlt) as (p & Hp & _).
      rewrite (selected_pages_take _ _ _ p) in * by done.
      rewrite (selected_body_take _ _ _ p) by done.
      apply Forall_cons in Hok as [Hokp Hok].
      destruct (process_page_step os st p Hm Hokp) as (st1 & Hrun & Hm1 & Ht & Hw).
      destruct (IH _ _ Hm1 Hidx Hok) as (st' & Hrun' & Hm' & Ht' & Hw').
      exists st'. rewrite Hrun. cbn. split; [done|].
      rewrite <- app_assoc in Hm'. split; [done|].
      rewrite Ht', Ht, Hw', Hw, <- app_assoc. done.
Qed.

Lemma extract_and_merge_survey_run images :
  Forall (λ p, page_ok (outcome p)) images →
  extract_and_merge_survey detect_and_ocr text_to_llm images =
  Ok (merged_record (outcome <$> images)).
Proof.
  intros Hok. unfold extract_and_merge_survey, merge_all_loop.
  destruct (process_pages_run images [] init_state merged_of_init Hok)
    as (st & Hrun & Hm & _).
  rewrite Hrun. cbn. f_equal. by apply finish_merged_of.
Qed.

Lemma extract_selected_pages_survey_run pages_data sel :
  indices_ok pages_data sel →
  Forall (λ p, page_ok (outcome p)) (selected_pages pages_data sel) →
  extract_selected_pages_survey detect_and_ocr text_to_llm pages_data sel =
  Ok (merged_record (outcome <$> selected_pages pages_data sel)).
Proof.
  intros Hidx Hok. unfold extract_selected_pages_survey, selected_loop.
  destruct (selected_run pages_data sel [] init_state merged_of_init Hidx Hok)
    as (st & Hrun & Hm & _).
  rewrite Hrun. cbn. f_equal. by apply finish_merged_of.
Qed.

End PipelineFacts.

(** ** The claims on the merger *)

Section MergerClaims.

Context {page polygon : Type}.
Variable detect_and_ocr : page → list (polygon * string).
Variable text_to_llm : string → option structured.

Abbreviation outcome := (page_outcome detect_and_ocr text_to_llm).
Abbreviation merge_all := (extract_and_merge_survey detect_and_ocr text_to_llm).
Abbreviation merge_selected :=
  (extract_selected_pages_survey detect_and_ocr text_to_llm).
Abbreviation pages_ok := (Forall (λ p, page_ok (outcome p))).

Lemma first_provided_None f os :
  Forall (λ s, provided f s = None) os → first_provided f os = None.
Proof. induction 1 as [|s os Hs _ IH]; cbn; [done|]. by rewrite Hs. Qed.

Lemma page_points_failed s : extraction_succeeded s = false → page_points s = [].
Proof.
  unfold page_points. destruct s as [m|v]; cbn; [done|].
  destruct v; cbn; try done. by intros ->.
Qed.

Lemma fmap_sp_dump_SPVal (l : list pyval) : sp_dump <$> (SPVal <$> l) = l.
Proof. induction l as [|v l IH]; cbn; [done|]. by rewrite IH. Qed.

Lemma page_ok_iterable s : page_ok s = points_iterable s.
Proof.
  unfold page_ok, points_iterable, collect_points, Py.contains, Py.getitem.
  destruct s as [m|v]; [done|]. destruct v as [| | | | |d]; try done.
  destruct (Py.lookup "survey_points" d) as [v|]; [|done].
  by destruct v.
Qed.

Lemma pages_ok_iterable (pages : list page) :
  Forall (λ p, points_iterable (outcome p)) pages → pages_ok pages.
Proof.
  intros Hall. eapply Forall_impl; [exact Hall|].
  intros p Hp. cbn. by rewrite page_ok_iterable.
Qed.

Lemma page_point_list_declared s : page_point_list s = declared_points s.
Proof.
  unfold page_point_list, page_points, declared_points, collect_points,
    Py.contains, Py.getitem.
  destruct s as [m|v].
  - cbn [app fmap]. by rewrite <- list_fmap_compose.
  - destruct v as [| | | | |d]; try done.
    destruct (Py.lookup "survey_points" d) as [v|]; [|done].
    destruct v; cbn; try done; apply fmap_sp_dump_SPVal.
Qed.

Lemma points_of_succeeded os :
  sp_dump <$> concat (page_points <$> os) =
  concat (page_point_list <$> List.filter extraction_succeeded os).
Proof.
  induction os as [|s os IH]; [done|]. cbn [fmap list_fmap concat List.filter].
  rewrite fmap_app, IH. destruct (extraction_succeeded s) eqn:E; [done|].
  by rewrite page_points_failed.
Qed.

Lemma declared_of_succeeded os :
  sp_dump <$> concat (page_points <$> os) =
  concat (declared_points <$> List.filter extraction_succeeded os).
Proof.
  rewrite points_of_succeeded. f_equal. apply list_fmap_ext.
  intros _ s _. apply page_point_list_declared.
Qed.

Lemma survey_points_of_merged_record os :
  survey_points_of (merged_record os) =
  VList (sp_dump <$> concat (page_points <$> os)).
Proof.
  unfold survey_points_of, Py.get_default. rewrite lookup_merged_record_points.
  by destruct (concat (page_points <$> os)).
Qed.


(** C2.  The point list of the record returned by either function is the
    concatenation, in processing order, of the point lists of the pages
    that succeeded extraction, each as the page outcome holds it; nothing
    is removed, so two pages that are the same page give its points
    twice. *)
Theorem C2_points_concatenated_in_page_order
    (images pages_data : list page) (sel : list Z) :
  Forall (λ p, points_iterable (outcome p)) images →
  indices_ok pages_data sel →
  Forall (λ p, points_iterable (outcome p)) (selected_pages pages_data sel) →
  (∃ merged, merge_all images = Ok merged ∧
     survey_points_of merged =
     VList (concat (declared_points <$>
                    List.filter extraction_succeeded (outcome <$> images)))) ∧
  (∃ merged, merge_selected pages_data sel = Ok merged ∧
     survey_points_of merged =
     VList (concat (declared_points <$>
                    List.filter extraction_succeeded
                      (outcome <$> selected_pages pages_data sel)))) ∧
  (∀ p, p ∈ images →
     ∃ merged, merge_all [p; p] = Ok merged ∧
       survey_points_of merged =
       VList (declared_points (outcome p) ++ declared_points (outcome p))).
Proof.
  intros Hall Hidx Hsel.
  apply pages_ok_iterable in Hall. apply pages_ok_iterable in Hsel.
  split; [|split].
  - rewrite extract_and_merge_survey_run by done. eexists. split; [done|].
    by rewrite survey_points_of_merged_record, declared_of_succeeded.
  - rewrite extract_selected_pages_survey_run by done. eexists. split; [done|].
    by rewrite survey_points_of_merged_record, declared_of_succeeded.
  - intros p Hp. rewrite Forall_forall in Hall.
    rewrite extract_and_merge_survey_run by (repeat constructor; by apply Hall).
    eexists. split; [done|]. rewrite survey_points_of_merged_record.
    rewrite <- !page_point_list_declared.
    cbn. by rewrite app_nil_r, fmap_app.
Qed.

(** C5.  A declared metadata field for which no processed page has a
    value other than [None] and [""] is [None] in the accumulator when the
    loop ends and has no key in the record returned; no key of the record
    returned maps to [None]. *)
Theorem C5_unobserved_field_omitted
    (images pages_data : list page) (sel : list Z) (f : string) :
  pages_ok images → indices_ok pages_data sel →
  pages_ok (selected_pages pages_data sel) →
  f ∈ metadata_fields →
  (Forall (λ p, provided f (outcome p) = None) images →
   ∃ st merged,
     merge_all_loop detect_and_ocr text_to_llm images = Ok st ∧
     Py.lookup f (merged_metadata st) = Some VNone ∧
     merge_all images = Ok merged ∧ f ∉ merged.*1 ∧
     ∀ k v, (k, v) ∈ merged → v ≠ VNone) ∧
  (Forall (λ p, provided f (outcome p) = None) (selected_pages pages_data sel) →
   ∃ st merged,
     selected_loop detect_and_ocr text_to_llm pages_data sel = Ok st ∧
     Py.lookup f (merged_metadata st) = Some VNone ∧
     merge_selected pages_data sel = Ok merged ∧ f ∉ merged.*1 ∧
     ∀ k v, (k, v) ∈ merged → v ≠ VNone).
Proof.
  intros Hall Hidx Hsel Hf.
  assert (∀ os st, merged_of os st → first_provided f os = None →
            Py.lookup f (merged_metadata st) = Some VNone ∧
            f ∉ (merged_record os).*1 ∧
            ∀ k v, (k, v) ∈ merged_record os → v ≠ VNone) as Hkey.
  { intros os st [_ Hm] Hnone. split; [|split].
    - by rewrite Hm, lookup_tabulate, decide_True, Hnone.
    - apply lookup_None_keys. by rewrite lookup_merged_record_field.
    - intros k v Hin ->. by apply merged_record_values in Hin. }
  split; intros Hnone.
  - destruct (process_pages_run detect_and_ocr text_to_llm images []
                init_state merged_of_init Hall) as (st & Hrun & Hm & _).
    exists st, (merged_record (outcome <$> images)).
    rewrite extract_and_merge_survey_run by done.
    destruct (Hkey _ _ Hm) as (? & ? & ?).
    { apply first_provided_None. by apply Forall_fmap. }
    done.
  - destruct (selected_run detect_and_ocr text_to_llm pages_data sel []
                init_state merged_of_init Hidx Hsel) as (st & Hrun & Hm & _).
    exists st, (merged_record (outcome <$> selected_pages pages_data sel)).
    rewrite extract_selected_pages_survey_run by done.
    destruct (Hkey _ _ Hm) as (? & ? & ?).
    { apply first_provided_None. by apply Forall_fmap. }
    done.
Qed.

(** C7.  Whatever the pages, an empty selection makes
    [extract_selected_pages_survey] return the empty record: it does not
    raise, and the record has no key, so no points and no metadata. *)
Theorem C7_empty_selection_gives_empty_record (pages_data : list page) :
  merge_selected pages_data [] = Ok [] ∧
  survey_points_of [] = VList [] ∧
  selected_pages pages_data [] = [].
Proof. split; [by vm_compute | done]. Qed.

Lemma merged_record_invariant os : record_invariant os (merged_record os).
Proof.
  assert (concat (page_points <$> os) ≠ [] ↔
          ∃ s, s ∈ os ∧ page_point_list s ≠ []) as Hex.
  { induction os as [|s os IH]; cbn.
    - split; [done|]. intros (s & Hs & _). by apply elem_of_nil in Hs.
    - unfold page_point_list in *. destruct (page_points s) as [|x xs] eqn:E; cbn.
      + rewrite IH. split.
        * intros (s' & Hs' & Hp). exists s'. split; [by right | done].
        * intros (s' & Hs' & Hp). apply elem_of_cons in Hs' as [->|Hs'].
          -- by rewrite E in Hp.
          -- by exists s'.
      + split; [|done]. intros _. exists s. split; [by left|]. by rewrite E. }
  split; [|split; [|split]].
  - intros k v Hin. apply merged_record_values in Hin.
    split; by intros ->.
  - rewrite <- Hex. unfold Py.contains. rewrite lookup_merged_record_points.
    by destruct (concat (page_points <$> os)).
  - intros v. rewrite lookup_merged_record_points.
    destruct (concat (page_points <$> os)); [done|]. intros [= <-].
    by eexists.
  - apply merged_record_nil.
Qed.

(** C9.  The record returned by either function satisfies
    [record_invariant]: no key maps to [None] or to [""]; the key
    ["survey_points"] is there exactly when some processed page gave at
    least one point, and then maps to a non-empty list; and when no
    processed page succeeded extraction the record is the empty dict. *)
Theorem C9_returned_record_invariant
    (images pages_data : list page) (sel : list Z) :
  pages_ok images → indices_ok pages_data sel →
  pages_ok (selected_pages pages_data sel) →
  (∃ merged, merge_all images = Ok merged ∧
             record_invariant (outcome <$> images) merged) ∧
  (∃ merged, merge_selected pages_data sel = Ok merged ∧
             record_invariant (outcome <$> selected_pages pages_data sel) merged).
Proof.
  intros Hall Hidx Hsel. split.
  - rewrite extract_and_merge_survey_run by done. eexists. split; [done|].
    apply merged_record_invariant.
  - rewrite extract_selected_pages_survey_run by done. eexists. split; [done|].
    apply merged_record_invariant.
Qed.

Lemma merge_page_warnings s st st' :
  merge_page s st = Ok st' → range_warnings st' = range_warnings st.
Proof.
  unfold merge_page. destruct (collect_points s _) as [[pts meta]|]; [|done].
  cbn [mbind result_bind].
  destruct (for_in metadata_fields _ _); [|done]. by intros [= <-].
Qed.

(** C10.  Whatever the (non-empty) page list and [k] between 1 and its
    length, the index [-k] passes the range guard: the loop body does not
    warn and processes the page [k]-th from the end, so that selecting
    [-k] alone gives what merging that page alone gives; with [k = 1] the
    page is the last one. *)
Theorem C10_negative_index_selects_from_the_end
    (pages_data : list page) (k : Z) :
  1 ≤ k ≤ Z.of_nat (length pages_data) →
  ∃ p, pages_data !! (length pages_data - Z.to_nat k)%nat = Some p ∧
       (k = 1 → last pages_data = Some p) ∧
       (- k >=? Z.of_nat (length pages_data)) = false ∧
       selected_pages pages_data [- k] = [p] ∧
       (∀ st, selected_body detect_and_ocr text_to_llm pages_data st (- k) =
              process_page detect_and_ocr text_to_llm st p) ∧
       (∀ st st', selected_body detect_and_ocr text_to_llm pages_data st (- k)
                  = Ok st' →
                  range_warnings st' = range_warnings st) ∧
       merge_selected pages_data [- k] = merge_all [p].
Proof.
  intros Hk.
  assert ((- k >=? Z.of_nat (length pages_data)) = false) as Hge.
  { rewrite Z.geb_leb. apply Z.leb_gt. lia. }
  destruct (index_in_range pages_data (- k)) as (p & Hidx & Hp); [lia..|].
  rewrite decide_True in Hp by lia.
  replace (Z.to_nat (Z.of_nat (length pages_data) + - k))
    with (length pages_data - Z.to_nat k)%nat in Hp by lia.
  assert (∀ st, selected_body detect_and_ocr text_to_llm pages_data st (- k) =
                process_page detect_and_ocr text_to_llm st p) as Hbody.
  { intros st. by apply selected_body_take. }
  exists p. repeat split; try done.
  - intros ->. rewrite last_lookup. rewrite <- Hp. f_equal. lia.
  - by rewrite (selected_pages_take _ _ _ p).
  - intros st st'. rewrite Hbody. unfold process_page. intros Hrun.
    by apply merge_page_warnings in Hrun.
  - unfold extract_selected_pages_survey, selected_loop, extract_and_merge_survey,
      merge_all_loop. cbn [for_in]. by rewrite Hbody.
Qed.

End MergerClaims.

(** ** Merging a merged record again *)

Section Remerge.
Implicit Types (os : list structured).

Lemma provided_of_merged_record os f :
  f ∈ metadata_fields →
  concat (page_points <$> os) ≠ [] →
  provided f (Plain (VDict (merged_record os))) = first_provided f os.
Proof.
  intros Hf Hne. unfold provided, page_metadata. cbn [collect_points].
  unfold Py.contains, Py.getitem. rewrite lookup_merged_record_points.
  destruct (concat (page_points <$> os)) as [|x xs] eqn:E; [done|]. cbn.
  unfold Py.get. rewrite lookup_merged_record_field by done.
  destruct (first_provided f os) as [v|] eqn:Ev; cbn; [|done].
  by rewrite (first_provided_nonempty _ _ _ Ev).
Qed.

Lemma page_points_of_merged_record os :
  concat (page_points <$> os) ≠ [] →
  collect_points (Plain (VDict (merged_record os))) [] =
  Ok (SPVal <$> (sp_dump <$> concat (page_points <$> os)), merged_record os).
Proof.
  intros Hne. cbn [collect_points].
  unfold Py.contains, Py.getitem. rewrite lookup_merged_record_points.
  by destruct (concat (page_points <$> os)).
Qed.

(** Merging the record of [os] as the only page gives the record again,
    when it has points or is empty. *)
Lemma remerge_merged_record os :
  concat (page_points <$> os) ≠ [] ∨ merged_record os = [] →
  page_ok (Plain (VDict (merged_record os))) ∧
  merged_record [Plain (VDict (merged_record os))] = merged_record os.
Proof.
  intros [Hne|Hnil].
  - split.
    { unfold page_ok. by rewrite page_points_of_merged_record. }
    set (r := merged_record os).
    assert (page_points (Plain (VDict r)) =
            SPVal <$> (sp_dump <$> concat (page_points <$> os))) as Hpp.
    { unfold page_points, r. by rewrite page_points_of_merged_record. }
    unfold merged_record at 1.
    cbn [fmap list_fmap concat]. rewrite app_nil_r, Hpp, fmap_sp_dump_SPVal.
    assert (tabulate metadata_fields
              (λ f, default VNone (first_provided f [Plain (VDict r)])) =
            tabulate metadata_fields
              (λ f, default VNone (first_provided f os))) as ->.
    { apply tabulate_ext. intros f Hf. cbn [first_provided].
      unfold r. rewrite provided_of_merged_record by assumption.
      by destruct (first_provided f os). }
    unfold r, merged_record.
    destruct (concat (page_points <$> os)) as [|x xs]; [by destruct Hne|].
    cbn [fmap list_fmap Py.truthy]. reflexivity.
  - rewrite Hnil. split; [done|]. apply merged_record_nil.
    by repeat constructor.
Qed.

End Remerge.

Section RemergeClaim.

Context {page polygon page' polygon' : Type}.
Variable detect_and_ocr : page → list (polygon * string).
Variable text_to_llm : string → option structured.
Variable detect_and_ocr' : page' → list (polygon' * string).
Variable text_to_llm' : string → option structured.

(** C8, as amended.  Let [merged] be the record either function returns
    for some pages, and let a second run see one page whose extraction
    outcome is that record.  When [merged] has the key ["survey_points"]
    (some page gave a point) or is empty, the second run returns
    [merged] again, key for key in the same order. *)
Theorem C8_remerge_with_points_is_identity
    (images pages_data : list page) (sel : list Z) (again : page')
    (merged : pydict) :
  Forall (λ p, page_ok (page_outcome detect_and_ocr text_to_llm p)) images →
  indices_ok pages_data sel →
  Forall (λ p, page_ok (page_outcome detect_and_ocr text_to_llm p))
    (selected_pages pages_data sel) →
  extract_and_merge_survey detect_and_ocr text_to_llm images = Ok merged ∨
  extract_selected_pages_survey detect_and_ocr text_to_llm pages_data sel
    = Ok merged →
  page_outcome detect_and_ocr' text_to_llm' again = Plain (VDict merged) →
  Py.contains "survey_points" merged = true ∨ merged = [] →
  extract_and_merge_survey detect_and_ocr' text_to_llm' [again] = Ok merged ∧
  extract_selected_pages_survey detect_and_ocr' text_to_llm' [again] [0]
    = Ok merged.
Proof.
  intros Hall Hidx Hsel Hrun Hagain Hshape.
  assert (∃ os, merged = merged_record os) as [os ->].
  { destruct Hrun as [Hrun|Hrun].
    - rewrite extract_and_merge_survey_run in Hrun by done.
      injection Hrun as <-. by eexists.
    - rewrite extract_selected_pages_survey_run in Hrun by done.
      injection Hrun as <-. by eexists. }
  destruct (remerge_merged_record os) as [Hok Heq].
  { destruct Hshape as [Hc|Hn]; [left|by right].
    unfold Py.contains in Hc. rewrite lookup_merged_record_points in Hc.
    by destruct (concat (page_points <$> os)). }
  split.
  - rewrite extract_and_merge_survey_run.
    + cbn [fmap list_fmap]. by rewrite Hagain, Heq.
    + repeat constructor. by rewrite Hagain.
  - assert (selected_pages [again] [0] = [again]) as Hsel0 by reflexivity.
    rewrite extract_selected_pages_survey_run; rewrite ?Hsel0.
    + cbn [fmap list_fmap]. by rewrite Hagain, Heq.
    + repeat constructor. cbn. lia.
    + repeat constructor. by rewrite Hagain.
Qed.

End RemergeClaim.

(** ** The closed schema *)

Section ClosedSchema.

Lemma no_extra_fields_false fields (d : pydict) k :
  k ∈ d.*1 → k ∉ fields → no_extra_fields fields d = false.
Proof.
  intros Hk Hn. apply not_true_is_false. intros Hall.
  unfold no_extra_fields in Hall. rewrite forallb_forall in Hall.
  apply list_elem_of_fmap in Hk as ([k' v] & -> & Hin).
  apply list_elem_of_In, Hall, bool_decide_eq_true in Hin. done.
Qed.

Lemma validate_extra_field raw k :
  k ∈ raw.*1 → k ∉ declared_fields → validate raw = None.
Proof.
  intros Hk Hn. unfold validate.
  by rewrite (no_extra_fields_false _ _ k).
Qed.

Lemma validate_point_extra_field pt k :
  k ∈ pt.*1 → k ∉ point_fields → validate_point (VDict pt) = None.
Proof.
  intros Hk Hn. unfold validate_point.
  by rewrite (no_extra_fields_false _ _ k).
Qed.

Lemma validate_extra_point_field raw l pt k :
  Py.lookup "survey_points" raw = Some (VList l) → VDict pt ∈ l →
  k ∈ pt.*1 → k ∉ point_fields → validate raw = None.
Proof.
  intros Hl Hpt Hk Hn. unfold validate.
  destruct (no_extra_fields declared_fields raw); [|done].
  destruct (required_str (Py.lookup "uwi" raw)) as [u|]; [|done].
  cbn [mbind option_bind]. rewrite Hl. cbn [required_points].
  assert (mapM validate_point l = None) as ->; [|done].
  apply eq_None_not_Some. intros Hsome.
  apply mapM_is_Some in Hsome. rewrite Forall_forall in Hsome.
  destruct (Hsome _ Hpt) as [p Hp].
  by rewrite (validate_point_extra_field _ k) in Hp.
Qed.

Lemma merge_fields_empty_page fs : ∀ merged,
  for_in fs (merge_field []) merged = Ok merged.
Proof. induction fs as [|f fs IH]; intros merged; cbn; [done|]. apply IH. Qed.

Lemma merge_page_failure st : merge_page (Plain (VDict [])) st = Ok st.
Proof.
  unfold merge_page. cbn [collect_points Py.contains Py.lookup mbind result_bind].
  rewrite merge_fields_empty_page. by destruct st.
Qed.

Context {page polygon : Type}.
Variable detect_and_ocr : page → list (polygon * string).
Variable backend : string → option pyval.

(** C4.  With [text_to_llm] as the specification describes it: when the
    backend's answer to a page's text has a field [DirectionalSurvey] does
    not declare, or a survey point with a field [SurveyPoint] does not
    declare, the call raises, [extract_survey_structured] returns [{}], a
    page that did not succeed, and the loop body leaves the point list and
    the merged metadata as they were: no record with the extra field kept
    or dropped comes out of the page. *)
Theorem C4_undeclared_field_fails_the_page
    (img : page) (raw : pydict) :
  backend (page_text detect_and_ocr img) = Some (VDict raw) →
  (∃ k, k ∈ raw.*1 ∧ k ∉ declared_fields) ∨
  (∃ l pt k, Py.lookup "survey_points" raw = Some (VList l) ∧ VDict pt ∈ l ∧
             k ∈ pt.*1 ∧ k ∉ point_fields) →
  validate raw = None ∧
  text_to_llm_model backend (page_text detect_and_ocr img) = None ∧
  page_outcome detect_and_ocr (text_to_llm_model backend) img = Plain (VDict []) ∧
  extraction_succeeded (Plain (VDict [])) = false ∧
  ∀ st, ∃ st',
    process_page detect_and_ocr (text_to_llm_model backend) st img = Ok st' ∧
    all_survey_points st' = all_survey_points st ∧
    merged_metadata st' = merged_metadata st.
Proof.
  intros Hraw Hextra.
  assert (validate raw = None) as Hv.
  { destruct Hextra as [(k & Hk & Hn)|(l & pt & k & Hl & Hpt & Hk & Hn)].
    - by eapply validate_extra_field.
    - by eapply validate_extra_point_field. }
  assert (text_to_llm_model backend (page_text detect_and_ocr img) = None) as Hllm.
  { unfold text_to_llm_model. rewrite Hraw. cbn [mbind option_bind].
    by rewrite Hv. }
  assert (page_outcome detect_and_ocr (text_to_llm_model backend) img
          = Plain (VDict [])) as Hout.
  { unfold page_outcome, extract_survey_structured. by rewrite Hllm. }
  repeat split; try done.
  intros st. unfold process_page.
  change (extract_survey_structured _ _)
    with (page_outcome detect_and_ocr (text_to_llm_model backend) img).
  rewrite Hout, merge_page_failure. by eexists.
Qed.

End ClosedSchema.

(** ** Sorting *)

Section SortFacts.
Context {K A : Type} (leb : K → K → bool).
Hypothesis leb_total : ∀ a b, leb a b = false → leb b a = true.

Implicit Types (k : K) (x : A) (l : list (K * A)).
Abbreviation keys_le := (keys_le leb).

Lemma insert_by_perm k x l : Py.insert_by leb k x l ≡ₚ (k, x) :: l.
Proof.
  induction l as [|[k' x'] l IH]; cbn; [done|].
  destruct (leb k k'); [done|]. rewrite IH. apply Permutation_swap.
Qed.

Lemma sort_keyed_perm (l : list (K * A)) : Py.sort_keyed leb l ≡ₚ l.
Proof.
  induction l as [|[k x] l IH]; cbn; [done|].
  by rewrite insert_by_perm, IH.
Qed.

Lemma insert_by_sorted k x l :
  Sorted keys_le l → Sorted keys_le (Py.insert_by leb k x l).
Proof.
  induction 1 as [|[k' x'] l Hs IH Hhd]; cbn.
  - by repeat constructor.
  - destruct (leb k k') eqn:E.
    + constructor; [by constructor|]. by constructor.
    + constructor; [done|].
      destruct l as [|[k2 x2] l]; cbn in *.
      * constructor. by apply leb_total.
      * destruct (leb k k2); constructor; [by apply leb_total|].
        by inversion Hhd.
Qed.

Lemma sort_keyed_sorted (l : list (K * A)) : Sorted keys_le (Py.sort_keyed leb l).
Proof.
  induction l as [|[k x] l IH]; cbn; [constructor|]. by apply insert_by_sorted.
Qed.

(** A list sorted on its keys stays sorted when the keys are dropped, if
    the order of the keys is that of the items. *)
Lemma sorted_drop_keys {B : Type} (P : K * A → Prop) (R : relation B)
    (f : K * A → B) (l : list (K * A)) :
  (∀ p q, P p → P q → keys_le p q → R (f p) (f q)) →
  Sorted keys_le l → Forall P l → Sorted R (f <$> l).
Proof.
  intros HR. induction 1 as [|p l Hs IH Hhd]; intros HP; cbn; [constructor|].
  apply Forall_cons in HP as [Hp HP]. constructor; [by apply IH|].
  destruct Hhd as [|q l Hpq]; cbn; constructor.
  apply Forall_cons in HP as [Hq _]. by apply HR.
Qed.

End SortFacts.

Section SelectionFacts.

Lemma sorted_ints_perm zs : Py.sorted_ints zs ≡ₚ zs.
Proof.
  unfold Py.sorted_ints. rewrite sort_keyed_perm.
  rewrite <- list_fmap_compose. by rewrite list_fmap_id.
Qed.

Lemma sorted_ints_sorted zs : Sorted Z.le (Py.sorted_ints zs).
Proof.
  unfold Py.sorted_ints.
  apply (sorted_drop_keys Z.leb (λ p, p.1 = p.2)).
  - intros [a a'] [b b']; cbn. intros -> ->. unfold keys_le; cbn.
    apply Z.leb_le.
  - apply sort_keyed_sorted. intros a b Hab.
    apply Z.leb_le. apply Z.leb_gt in Hab. lia.
  - rewrite sort_keyed_perm. apply Forall_fmap. by apply Forall_true.
Qed.








End SelectionFacts.

(** ** The page selection *)

Section SelectionClaim.

Context {page polygon : Type}.
Variable detect_and_ocr : page → list (polygon * string).
Variable text_to_llm : string → option structured.


End SelectionClaim.

(** ** The display sort *)

Section DisplaySort.

Context {page polygon : Type}.
Variable detect_and_ocr : page → list (polygon * string).
Variable text_to_llm : string → option structured.
Variable builtins : float_builtins.
Variable exn_str : exn → string.

Abbreviation by_md := (sorted_by_md builtins).
Abbreviation table_of := (survey_table builtins).
Abbreviation process :=
  (process_selected_pages detect_and_ocr text_to_llm builtins exn_str).
Abbreviation click :=
  (click_process_selected detect_and_ocr text_to_llm builtins exn_str).

Lemma sorted_by_md_rows points :
  by_md (VList points) =
  keys ← mapM (md_key builtins) points;
  Some (snd <$> sort_by_key builtins (zip keys points)).
Proof. reflexivity. Qed.

Lemma sorted_by_md_perm points rows :
  sort_permutes builtins → by_md (VList points) = Some rows → rows ≡ₚ points.
Proof.
  intros Hsort. rewrite sorted_by_md_rows.
  destruct (mapM (md_key builtins) points) as [keys|] eqn:Hk; [|done].
  cbn [mbind option_bind]. intros [= <-].
  pose proof (length_mapM _ _ _ Hk) as Hlen.
  rewrite (Hsort (zip keys points)). by rewrite snd_zip by lia.
Qed.

Lemma survey_table_rows survey cols data points :
  sort_permutes builtins →
  table_of survey = Ok (cols, data) →
  Py.lookup "survey_points" survey = Some (VList points) →
  ∃ rows, data = VList rows ∧ rows ≡ₚ points ∧
          (mapM (md_key builtins) points = None → rows = points) ∧
          (∀ keys, mapM (md_key builtins) points = Some keys →
                   rows = snd <$> sort_by_key builtins (zip keys points)).
Proof.
  intros Hsort Ht Hl. unfold survey_table, Py.contains, Py.getitem in Ht.
  rewrite Hl in Ht. destruct survey as [|kv survey]; [done|].
  cbn [Py.truthy andb mbind result_bind Py.truth] in Ht.
  destruct points as [|x points].
  - cbn in Ht. injection Ht as <- <-. exists []. split; [done|].
    split; [done|]. split; [done|]. intros keys. cbn. intros [= <-]. cbn.
    pose proof (Hsort []) as Hnil. apply Permutation_nil_r in Hnil.
    by rewrite Hnil.
  - cbn [Py.truthy] in Ht.
    pose proof (sorted_by_md_perm (x :: points)) as Hperm.
    pose proof (sorted_by_md_rows (x :: points)) as Hrows.
    destruct (by_md (VList (x :: points))) as [rows|].
    + destruct (Py.first _) as [fst|]; [|done]. cbn in Ht.
      destruct (Py.keys fst); [|done]. cbn in Ht. injection Ht as <- <-.
      exists rows. split; [done|]. split; [by apply Hperm|].
      destruct (mapM (md_key builtins) (x :: points)) as [keys|]; [|done].
      split; [done|]. intros keys' [= <-]. by injection Hrows as ->.
    + destruct (Py.first _) as [fst|]; [|done]. cbn in Ht.
      destruct (Py.keys fst); [|done]. cbn in Ht. injection Ht as <- <-.
      exists (x :: points). split; [done|]. split; [done|]. split; [done|].
      intros keys Hk. by rewrite Hk in Hrows.
Qed.

Lemma survey_table_data_not_none survey cols data :
  table_of survey = Ok (cols, data) → data ≠ VNone.
Proof.
  unfold survey_table. destruct (_ && _); [|by intros [= <- <-]].
  destruct (Py.getitem _ _) as [points|]; [|done]. cbn [mbind result_bind].
  destruct (Py.truth points) eqn:Htruth; [|by intros [= <- <-]].
  destruct (Py.first _) as [fst|]; [|done]. cbn [mbind result_bind].
  destruct (Py.keys fst); [|done]. cbn [mbind result_bind].
  intros [= <- <-]. destruct (by_md points); [done|].
  intros ->. done.
Qed.

(** C3, as amended.  When [process_selected_pages] shows a record, the
    record it writes to the store is the merged record itself, so the
    sort does not touch its point order, and the rows it writes to the
    table are the record's points as [sorted] returns them: the same
    points in some order, and the points as they are when a key cannot be
    computed.  The write to the table then runs
    [update_survey_from_table], which puts the rows under
    ["survey_points"] of the stored record: from then on the store holds
    the points in the order of the rows. *)
Theorem C3_sort_is_a_view_until_the_table_writes_back
    (n_clicks : option Z) (pages_data : list page) (selected_pages : list Z)
    (s : stores) (survey : pydict) (cols : list string) (data : pyval) :
  sort_permutes builtins →
  process n_clicks pages_data selected_pages =
    ProcessOutputs (set_to (VDict survey)) (set_to cols) (set_to data) →
  extract_selected_pages_survey detect_and_ocr text_to_llm pages_data
    selected_pages = Ok survey ∧
  (∀ points, Py.lookup "survey_points" survey = Some (VList points) →
     ∃ rows, data = VList rows ∧ rows ≡ₚ points ∧
             (mapM (md_key builtins) points = None → rows = points) ∧
             (∀ keys, mapM (md_key builtins) points = Some keys →
                      rows = snd <$> sort_by_key builtins (zip keys points))) ∧
  survey_table_data (click n_clicks pages_data selected_pages s) = data ∧
  survey_store (click n_clicks pages_data selected_pages s) =
    (if Py.truthy survey
     then VDict (Py.setitem "survey_points" data survey)
     else VDict survey) ∧
  survey_points_of (Py.setitem "survey_points" data survey) = data ∧
  (∀ k, k ≠ "survey_points" →
        Py.lookup k (Py.setitem "survey_points" data survey) = Py.lookup k survey).
Proof.
  intros Hsort Hout.
  assert (extract_selected_pages_survey detect_and_ocr text_to_llm pages_data
            selected_pages = Ok survey ∧
          table_of survey = Ok (cols, data)) as [Hrun Htab].
  { unfold process_selected_pages in Hout.
    destruct (_ || _); [done|].
    destruct (extract_selected_pages_survey _ _ _ _) as [sv|]; [|done].
    cbn [mbind result_bind] in Hout.
    destruct (table_of sv) as [[c d]|] eqn:Et; [|done].
    cbn [mbind result_bind] in Hout. injection Hout as H1 H2 H3. by subst. }
  split; [done|].
  split; [intros points; by apply (survey_table_rows _ cols)|].
  unfold click_process_selected. rewrite Hout.
  cbn [out_survey out_table_data write survey_store survey_table_data].
  unfold update_survey_from_table. cbn [Py.truth].
  pose proof (survey_table_data_not_none _ _ _ Htab) as Hnn.
  assert (negb match data with VNone => true | _ => false end = true) as ->
    by by destruct data.
  rewrite andb_true_r.
  split; [by destruct (Py.truthy survey)|]. split; [|split].
  - by destruct (Py.truthy survey).
  - unfold survey_points_of, Py.get_default. by rewrite lookup_setitem_eq.
  - intros k Hk. apply lookup_setitem_ne. congruence.
Qed.

End DisplaySort.

(** ** The claims on the sample document *)

Lemma sample_pages_ok (pages : list string) :
  Forall (λ p, page_ok (page_outcome sample_ocr sample_llm p)) pages.
Proof.
  apply Forall_forall. intros p _.
  unfold page_outcome, page_text, extract_survey_structured, sample_llm.
  cbn. repeat case_decide; done.
Qed.


Lemma sample_pages_iterable (pages : list string) :
  Forall (λ p, points_iterable (page_outcome sample_ocr sample_llm p)) pages.
Proof.
  apply Forall_forall. intros p _.
  unfold page_outcome, page_text, extract_survey_structured, sample_llm.
  cbn. repeat case_decide; done.
Qed.

Lemma C2_witness :
  Forall (λ p, points_iterable (page_outcome sample_ocr sample_llm p))
    sample_pages ∧
  indices_ok sample_pages [1; 2] ∧
  ∃ merged,
    extract_selected_pages_survey sample_ocr sample_llm sample_pages [1; 2]
      = Ok merged ∧
    survey_points_of merged =
    VList [point_dump (station 100); point_dump (station 200);
           point_dump (station 100)].
Proof.
  assert (indices_ok sample_pages [1; 2]) as Hidx.
  { repeat constructor; cbn; lia. }
  split; [apply sample_pages_iterable|]. split; [exact Hidx|].
  destruct (C2_points_concatenated_in_page_order sample_ocr sample_llm
              sample_pages sample_pages [1; 2]) as (_ & H & _).
  - apply sample_pages_iterable.
  - exact Hidx.
  - apply sample_pages_iterable.
  - exact H.
Defined.

Lemma C5_witness :
  "operator" ∈ metadata_fields ∧
  ∃ merged,
    extract_and_merge_survey sample_ocr sample_llm sample_pages = Ok merged ∧
    "operator" ∉ merged.*1.
Proof.
  assert ("operator" ∈ metadata_fields) as Hf.
  { apply (bool_decide_unpack _). by vm_compute. }
  split; [exact Hf|].
  destruct (C5_unobserved_field_omitted sample_ocr sample_llm
              sample_pages sample_pages [0] "operator") as (H & _).
  - apply sample_pages_ok.
  - repeat constructor; cbn; lia.
  - apply sample_pages_ok.
  - exact Hf.
  - destruct H as (st & merged & _ & _ & Hrun & Hout & _).
    + repeat constructor.
    + by exists merged.
Defined.

Lemma C9_witness :
  indices_ok sample_pages [0; 2] ∧
  ∃ merged,
    extract_selected_pages_survey sample_ocr sample_llm sample_pages [0; 2]
      = Ok merged ∧
    record_invariant
      (page_outcome sample_ocr sample_llm <$> selected_pages sample_pages [0; 2])
      merged.
Proof.
  assert (indices_ok sample_pages [0; 2]) as Hidx.
  { repeat constructor; cbn; lia. }
  split; [exact Hidx|].
  destruct (C9_returned_record_invariant sample_ocr sample_llm
              sample_pages sample_pages [0; 2]) as (_ & H).
  - apply sample_pages_ok.
  - exact Hidx.
  - apply sample_pages_ok.
  - exact H.
Defined.

Lemma C10_witness :
  1 ≤ 1 ≤ Z.of_nat (length sample_pages) ∧
  selected_pages sample_pages [- 1] = ["P3"] ∧
  extract_selected_pages_survey sample_ocr sample_llm sample_pages [- 1] =
  extract_and_merge_survey sample_ocr sample_llm ["P3"].
Proof.
  assert (1 ≤ 1 ≤ Z.of_nat (length sample_pages)) as Hk by (cbn; lia).
  split; [exact Hk|].
  destruct (C10_negative_index_selects_from_the_end sample_ocr sample_llm
              sample_pages 1 Hk) as (p & Hp & _ & _ & Hsel & _ & _ & Hrun).
  injection Hp as <-. by split.
Defined.

Lemma C8_witness :
  extract_and_merge_survey sample_ocr sample_llm ["P2"] = Ok P2_record ∧
  Py.contains "survey_points" P2_record = true ∧
  extract_and_merge_survey sample_ocr (λ _, Some (Plain (VDict P2_record))) ["P2"]
    = Ok P2_record.
Proof.
  assert (extract_and_merge_survey sample_ocr sample_llm ["P2"] = Ok P2_record)
    as Hrun by (by vm_compute).
  split; [exact Hrun|]. split; [reflexivity|].
  destruct (C8_remerge_with_points_is_identity sample_ocr sample_llm
              sample_ocr (λ _, Some (Plain (VDict P2_record)))
              ["P2"] sample_pages [0] "P2" P2_record) as [H _].
  - apply sample_pages_ok.
  - repeat constructor; cbn; lia.
  - apply sample_pages_ok.
  - left. exact Hrun.
  - reflexivity.
  - left. reflexivity.
  - exact H.
Defined.

(** C8, as stated, fails: the record of page P1 alone has a uwi and no
    points, and merging it again gives the empty record. *)
Lemma C8_remerge_without_points_loses_metadata :
  ∃ merged,
    extract_and_merge_survey sample_ocr sample_llm ["P1"] = Ok merged ∧
    merged = [("uwi", VStr "ABC")] ∧
    extract_and_merge_survey sample_ocr (λ _, Some (Plain (VDict merged))) ["P1"]
      = Ok [] ∧
    extract_and_merge_survey sample_ocr (λ _, Some (Plain (VDict merged))) ["P1"]
      ≠ Ok merged.
Proof.
  exists [("uwi", VStr "ABC")]. split; [by vm_compute|]. split; [done|].
  assert (extract_and_merge_survey sample_ocr
            (λ _, Some (Plain (VDict [("uwi", VStr "ABC")]))) ["P1"] = Ok [])
    as Hagain by (by vm_compute).
  split; [exact Hagain|]. rewrite Hagain. discriminate.
Qed.

Lemma C4_witness :
  sample_backend (page_text sample_ocr "P1") =
    Some (VDict [("uwi", VStr "ABC"); ("survey_points", VList []);
                 ("well_name", VStr "Smith 1H")]) ∧
  "well_name" ∉ declared_fields ∧
  page_outcome sample_ocr (text_to_llm_model sample_backend) "P1"
    = Plain (VDict []).
Proof.
  assert ("well_name" ∉ declared_fields) as Hn.
  { apply (bool_decide_unpack _). by vm_compute. }
  split; [reflexivity|]. split; [exact Hn|].
  destruct (C4_undeclared_field_fails_the_page sample_ocr sample_backend "P1"
              [("uwi", VStr "ABC"); ("survey_points", VList []);
               ("well_name", VStr "Smith 1H")]) as (_ & _ & H & _).
  - reflexivity.
  - left. exists "well_name". split; [|exact Hn].
    apply (bool_decide_unpack _). by vm_compute.
  - exact H.
Defined.


(** The sorting is what makes the order the page order: given the index
    list [[1; 0]], which the checkbox callback never stores,
    [extract_selected_pages_survey] takes page 1 first, and the merged uwi
    is that of page 1. *)
Lemma unsorted_index_list_changes_the_merge :
  ∃ merged01 merged10,
    extract_selected_pages_survey sample_ocr sample_llm sample_pages [0; 1]
      = Ok merged01 ∧
    extract_selected_pages_survey sample_ocr sample_llm sample_pages [1; 0]
      = Ok merged10 ∧
    Py.lookup "uwi" merged01 = Some (VStr "ABC") ∧
    Py.lookup "uwi" merged10 = Some (VStr "XYZ") ∧
    extract_selected_pages_survey sample_ocr sample_llm sample_pages [1; 0] ≠
    extract_selected_pages_survey sample_ocr sample_llm sample_pages [0; 1].
Proof.
  eexists _, _. split; [by vm_compute|]. split; [by vm_compute|].
  split; [reflexivity|]. split; [reflexivity|]. vm_compute. discriminate.
Qed.

Lemma sample_sort_permutes : sort_permutes sample_builtins.
Proof. intros l. apply sort_keyed_perm. Qed.

Lemma C3_witness :
  sort_permutes sample_builtins ∧
  process_selected_pages sample_ocr sample_llm sample_builtins
    sample_exn_str (Some 1) ["P3"] [0] =
    ProcessOutputs (set_to (VDict P3_record))
      (set_to ["md"; "inc"; "azi"; "tvd"; "ns"; "ew"]) (set_to (VList P3_rows)) ∧
  extract_selected_pages_survey sample_ocr sample_llm ["P3"] [0] = Ok P3_record ∧
  survey_store
    (click_process_selected sample_ocr sample_llm sample_builtins
       sample_exn_str (Some 1) ["P3"] [0] (Stores VNone VNone))
    = VDict (Py.setitem "survey_points" (VList P3_rows) P3_record).
Proof.
  assert (process_selected_pages sample_ocr sample_llm sample_builtins
            sample_exn_str (Some 1) ["P3"] [0] =
          ProcessOutputs (set_to (VDict P3_record))
            (set_to ["md"; "inc"; "azi"; "tvd"; "ns"; "ew"])
            (set_to (VList P3_rows))) as Hout by (by vm_compute).
  split; [exact sample_sort_permutes|]. split; [exact Hout|].
  destruct (C3_sort_is_a_view_until_the_table_writes_back sample_ocr sample_llm
              sample_builtins sample_exn_str (Some 1) ["P3"] [0]
              (Stores VNone VNone) P3_record
              ["md"; "inc"; "azi"; "tvd"; "ns"; "ew"] (VList P3_rows)
              sample_sort_permutes Hout)
    as (H & _ & _ & Hstore & _).
  split; [exact H|exact Hstore].
Defined.

(** C3, as stated, fails: page P3 lists the station at md 200 before the
    one at md 100; after the click that shows it, the store holds the
    station at md 100 first. *)
Lemma C3_stored_order_follows_the_display_sort :
  extract_selected_pages_survey sample_ocr sample_llm ["P3"] [0] = Ok P3_record ∧
  survey_store
    (click_process_selected sample_ocr sample_llm sample_builtins
       sample_exn_str (Some 1) ["P3"] [0] (Stores VNone VNone))
    = VDict [("survey_points", VList P3_rows)] ∧
  update_survey_from_table (VList P3_rows) (VDict P3_record)
    = Ok (VDict [("survey_points", VList P3_rows)]) ∧
  survey_points_of [("survey_points", VList P3_rows)] ≠ survey_points_of P3_record.
Proof.
  split; [by vm_compute|]. split; [by vm_compute|]. split; [by vm_compute|].
  vm_compute. discriminate.
Qed.

(** * More of the code *)

(** ** The loops, up to what they print and collect *)

Section LoopFacts.

Context {page polygon : Type}.
Variable detect_and_ocr : page → list (polygon * string).
Variable text_to_llm : string → option structured.

Abbreviation run_page := (process_page detect_and_ocr text_to_llm).
Abbreviation run_index := (selected_body detect_and_ocr text_to_llm).
Abbreviation outcome := (page_outcome detect_and_ocr text_to_llm).

Lemma for_in_app {A S : Type} (xs ys : list A) (body : S → A → result S) s :
  for_in (xs ++ ys) body s = s' ← for_in xs body s; for_in ys body s'.
Proof.
  revert s. induction xs as [|x xs IH]; intros s; cbn; [done|].
  destruct (body s x); cbn; [apply IH | done].
Qed.

Lemma collect_points_frame s points :
  collect_points s points =
  (λ r, (points ++ r.1, r.2)) <$> collect_points s [].
Proof.
  destruct s as [m|v]; cbn; [done|].
  destruct v as [| | | | |d]; cbn; try by rewrite app_nil_r.
  destruct (Py.contains "survey_points" d); cbn; [|by rewrite app_nil_r].
  destruct (Py.getitem "survey_points" d) as [v|]; cbn; [|done].
  destruct (Py.iter v); cbn; done.
Qed.

Lemma merge_page_sim s st1 st2 :
  same_core st1 st2 → result_rel same_core (merge_page s st1) (merge_page s st2).
Proof.
  intros [Hp Hm]. unfold merge_page. rewrite Hp, Hm.
  destruct (collect_points s _) as [[points meta]|]; cbn [mbind result_bind]; [|done].
  destruct (for_in metadata_fields _ _); cbn [mbind result_bind]; done.
Qed.

Lemma process_page_sim p st1 st2 :
  same_core st1 st2 → result_rel same_core (run_page st1 p) (run_page st2 p).
Proof. intros [Hp Hm]. unfold process_page. by apply merge_page_sim. Qed.

Lemma selected_body_sim (pages_data : list page) i st1 st2 :
  same_core st1 st2 →
  result_rel same_core (run_index pages_data st1 i) (run_index pages_data st2 i).
Proof.
  intros Hc. unfold selected_body.
  destruct (i >=? _); [exact Hc|].
  destruct (Py.index pages_data i); cbn [mbind result_bind]; [|done].
  by apply process_page_sim.
Qed.

Lemma finish_same_core st st' : same_core st st' → finish st = finish st'.
Proof. intros [Hp Hm]. unfold finish. by rewrite Hp, Hm. Qed.

Lemma finish_result_rel (x y : result merge_state) :
  result_rel same_core x y →
  (st ← x; Ok (finish st)) = (st ← y; Ok (finish st)).
Proof.
  destruct x as [st|e], y as [st'|e']; cbn; try done.
  - intros Hc. f_equal. by apply finish_same_core.
  - by intros ->.
Qed.

Lemma same_core_refl st : same_core st st.
Proof. by split. Qed.

Lemma process_page_failed p st :
  extraction_succeeded (outcome p) = false →
  ∃ st', run_page st p = Ok st' ∧ same_core st' st.
Proof.
  intros Hf. unfold process_page, merge_page.
  change (extract_survey_structured _ _) with (outcome p).
  assert (∀ points, collect_points (outcome p) points = Ok (points, [])) as Hcp.
  { intros points. destruct (outcome p) as [m|v]; cbn in *; [done|].
    destruct v; cbn in *; try done. by rewrite Hf. }
  rewrite Hcp. cbn [mbind result_bind]. rewrite merge_fields_empty_page.
  eexists. split; [done|]. by split.
Qed.

Lemma process_page_ok p st st' :
  run_page st p = Ok st' → page_ok (outcome p).
Proof.
  unfold process_page, merge_page, page_ok.
  change (extract_survey_structured _ _) with (outcome p).
  rewrite collect_points_frame.
  by destruct (collect_points (outcome p) []).
Qed.

Lemma process_pages_ok ps : ∀ st st',
  for_in ps run_page st = Ok st' → Forall (λ p, page_ok (outcome p)) ps.
Proof.
  induction ps as [|p ps IH]; intros st st'; cbn; [constructor|].
  destruct (run_page st p) as [st1|] eqn:E; cbn; [|done].
  intros Hrun. constructor; [by eapply process_page_ok | by eapply IH].
Qed.

Lemma selected_body_in_range (pages_data : list page) st i :
  (i >=? Z.of_nat (length pages_data)) = false →
  run_index pages_data st i = p ← Py.index pages_data i; run_page st p.
Proof. intros H. unfold selected_body. by rewrite H. Qed.

Lemma selected_loop_ok (pages_data : list page) sel : ∀ st st',
  for_in sel (run_index pages_data) st = Ok st' →
  indices_ok pages_data sel ∧
  Forall (λ p, page_ok (outcome p)) (selected_pages pages_data sel).
Proof.
  induction sel as [|i sel IH]; intros st st'; cbn [for_in].
  - intros _. split; constructor.
  - destruct (i >=? Z.of_nat (length pages_data)) eqn:Hge.
    + rewrite selected_body_skip by done. cbn [mbind result_bind].
      intros Hrun. destruct (IH _ _ Hrun) as [Hidx Hok].
      rewrite selected_pages_skip by done. split; [|done].
      constructor; [|done]. rewrite Z.geb_leb in Hge. apply Z.leb_le in Hge. lia.
    + rewrite selected_body_in_range by done.
      destruct (Py.index pages_data i) as [p|] eqn:Hp; cbn [mbind result_bind]; [|done].
      destruct (run_page st p) as [st1|] eqn:E; cbn [mbind result_bind]; [|done].
      intros Hrun. destruct (IH _ _ Hrun) as [Hidx Hok].
      rewrite (selected_pages_take _ _ _ p) by done. split.
      * constructor; [|done]. unfold Py.index in Hp. cbn zeta in Hp.
        destruct (decide (i < 0)); [|lia].
        destruct (decide (0 ≤ _ < _)); [lia|done].
      * constructor; [by eapply process_page_ok | done].
Qed.

End LoopFacts.

(** ** Selections and failures *)

Section SelectionEdges.

Context {page polygon : Type}.
Variable detect_and_ocr : page → list (polygon * string).
Variable text_to_llm : string → option structured.

Abbreviation run_page := (process_page detect_and_ocr text_to_llm).
Abbreviation run_index := (selected_body detect_and_ocr text_to_llm).
Abbreviation outcome := (page_outcome detect_and_ocr text_to_llm).
Abbreviation merge_all := (extract_and_merge_survey detect_and_ocr text_to_llm).
Abbreviation merge_selected :=
  (extract_selected_pages_survey detect_and_ocr text_to_llm).

Lemma process_page_outcome st p :
  run_page st p =
  merge_page (outcome p)
    (MergeState (all_page_texts st ++ [page_text detect_and_ocr p])
       (all_survey_points st) (merged_metadata st) (range_warnings st)).
Proof. reflexivity. Qed.

Lemma skip_out_of_range (pages_data : list page) sel : ∀ st1 st2,
  same_core st1 st2 →
  result_rel same_core
    (for_in sel (run_index pages_data) st1)
    (for_in (List.filter (λ i, negb (i >=? Z.of_nat (length pages_data))) sel)
       (run_index pages_data) st2).
Proof.
  induction sel as [|i sel IH]; intros st1 st2 Hc; cbn [for_in List.filter].
  - exact Hc.
  - destruct (i >=? Z.of_nat (length pages_data)) eqn:Hge; cbn [negb for_in].
    + rewrite selected_body_skip by done. cbn [mbind result_bind].
      apply IH. exact Hc.
    + pose proof (selected_body_sim detect_and_ocr text_to_llm pages_data i
                    st1 st2 Hc) as Hstep.
      destruct (run_index pages_data st1 i) as [a|e],
               (run_index pages_data st2 i) as [b|e']; cbn in Hstep |- *; try done.
      by apply IH.
Qed.

Lemma warnings_of_loop (pages_data : list page) sel : ∀ st st',
  for_in sel (run_index pages_data) st = Ok st' →
  range_warnings st' =
  range_warnings st ++ List.filter (λ i, i >=? Z.of_nat (length pages_data)) sel.
Proof.
  induction sel as [|i sel IH]; intros st st'; cbn [for_in List.filter].
  - intros [= <-]. by rewrite app_nil_r.
  - destruct (i >=? Z.of_nat (length pages_data)) eqn:Hge.
    + rewrite selected_body_skip by done. cbn [mbind result_bind].
      intros Hrun. rewrite (IH _ _ Hrun). cbn. by rewrite <- app_assoc.
    + rewrite selected_body_in_range by done.
      destruct (Py.index pages_data i) as [p|]; cbn [mbind result_bind]; [|done].
      destruct (run_page st p) as [st1|] eqn:E; cbn [mbind result_bind]; [|done].
      intros Hrun. rewrite (IH _ _ Hrun). f_equal.
      unfold process_page in E. by apply merge_page_warnings in E.
Qed.

(** X1.  An index at or past the page count is skipped: the call returns,
    or raises, what it does on the selection without such indices, and the
    warnings printed are those indices, in selection order. *)
Theorem out_of_range_indices_are_skipped (pages_data : list page) (sel : list Z) :
  merge_selected pages_data sel =
  merge_selected pages_data
    (List.filter (λ i, negb (i >=? Z.of_nat (length pages_data))) sel) ∧
  ∀ st, selected_loop detect_and_ocr text_to_llm pages_data sel = Ok st →
        range_warnings st =
        List.filter (λ i, i >=? Z.of_nat (length pages_data)) sel.
Proof.
  split.
  - unfold extract_selected_pages_survey, selected_loop.
    apply finish_result_rel, skip_out_of_range, same_core_refl.
  - intros st Hrun. by apply warnings_of_loop in Hrun.
Qed.

(** X2.  An index below [-len(pages_data)] is not caught by the range
    guard: [pages_data[page_idx]] raises IndexError, and the whole call
    raises it, whatever the pages before it gave. *)
Theorem index_below_range_raises
    (pages_data : list page) (before after : list Z) (i : Z) (st : merge_state) :
  i < - Z.of_nat (length pages_data) →
  selected_loop detect_and_ocr text_to_llm pages_data before = Ok st →
  merge_selected pages_data (before ++ i :: after) = Raise IndexError.
Proof.
  intros Hi Hrun. unfold extract_selected_pages_survey, selected_loop in *.
  rewrite for_in_app, Hrun. cbn [mbind result_bind for_in].
  rewrite selected_body_in_range.
  - unfold Py.index. cbn zeta. destruct (decide (i < 0)); [|lia].
    destruct (decide (0 ≤ _ < _)); [lia|done].
  - rewrite Z.geb_leb. apply Z.leb_gt. lia.
Qed.

(** X5.  A dict outcome whose ["survey_points"] is not iterable is not
    treated as a failed page: [extend] raises TypeError and the whole merge
    raises it. *)
Theorem non_iterable_points_abort_the_merge
    (before after : list page) (p : page) (d : pydict) (v : pyval)
    (st : merge_state) :
  outcome p = Plain (VDict d) →
  Py.lookup "survey_points" d = Some v →
  Py.iter v = Raise TypeError →
  merge_all_loop detect_and_ocr text_to_llm before = Ok st →
  merge_all (before ++ p :: after) = Raise TypeError.
Proof.
  intros Hout Hl Hiter Hrun. unfold extract_and_merge_survey, merge_all_loop in *.
  rewrite for_in_app, Hrun. cbn [mbind result_bind for_in].
  rewrite process_page_outcome, Hout. unfold merge_page.
  cbn [collect_points]. unfold Py.contains, Py.getitem. rewrite Hl.
  cbn [mbind result_bind]. by rewrite Hiter.
Qed.

Lemma drop_failed_pages ps : ∀ st1 st2,
  same_core st1 st2 →
  result_rel same_core
    (for_in ps run_page st1)
    (for_in (List.filter (λ p, extraction_succeeded (outcome p)) ps) run_page st2).
Proof.
  induction ps as [|p ps IH]; intros st1 st2 Hc; cbn [for_in List.filter].
  - exact Hc.
  - destruct (extraction_succeeded (outcome p)) eqn:Hs; cbn [for_in].
    + pose proof (process_page_sim detect_and_ocr text_to_llm p st1 st2 Hc)
        as Hstep.
      destruct (run_page st1 p) as [a|e], (run_page st2 p) as [b|e'];
        cbn in Hstep |- *; try done.
      by apply IH.
    + destruct (process_page_failed detect_and_ocr text_to_llm p st1 Hs)
        as (st' & -> & [Hp Hm]).
      cbn [mbind result_bind]. apply IH.
      destruct Hc as [Hp' Hm']. split; congruence.
Qed.

(** X4.  A page whose extraction failed leaves no trace in the result:
    the whole-document merge returns, or raises, what it does on the
    document without the failed pages. *)
Theorem failed_pages_leave_no_trace (images : list page) :
  merge_all images =
  merge_all (List.filter (λ p, extraction_succeeded (outcome p)) images).
Proof.
  unfold extract_and_merge_survey, merge_all_loop.
  apply finish_result_rel, drop_failed_pages, same_core_refl.
Qed.

Lemma lookup_middle_Z (pre post : list page) p :
  Py.index (pre ++ p :: post) (Z.of_nat (length pre)) = Ok p.
Proof.
  unfold Py.index. cbn zeta. destruct (decide (_ < 0)); [lia|].
  rewrite length_app. cbn [length]. rewrite decide_True by lia.
  rewrite Nat2Z.id. by rewrite list_lookup_middle.
Qed.

Lemma range_loop (post : list page) : ∀ pre st,
  for_in (Z.of_nat <$> seq (length pre) (length post))
    (run_index (pre ++ post)) st =
  for_in post run_page st.
Proof.
  induction post as [|p post IH]; intros pre st; [done|].
  cbn [length seq fmap list_fmap for_in].
  rewrite selected_body_in_range.
  - rewrite lookup_middle_Z. cbn [mbind result_bind].
    destruct (run_page st p) as [st1|]; cbn [mbind result_bind]; [|done].
    specialize (IH (pre ++ [p]) st1).
    rewrite <- app_assoc, length_app in IH. cbn in IH.
    rewrite Nat.add_1_r in IH. exact IH.
  - rewrite Z.geb_leb. apply Z.leb_gt. rewrite length_app. cbn [length]. lia.
Qed.

Lemma sorted_ints_of_sorted zs : Sorted Z.le zs → Py.sorted_ints zs = zs.
Proof.
  intros Hs. apply (Sorted_unique Z.le); [apply sorted_ints_sorted | done |].
  apply sorted_ints_perm.
Qed.

Lemma py_range_sorted n : Sorted Z.le (py_range n).
Proof.
  unfold py_range. generalize 0%nat. induction n as [|n IH]; intros k; cbn.
  - constructor.
  - constructor; [apply IH|]. destruct n; cbn; constructor. lia.
Qed.

Lemma checked_prefix (ids : list Z) (n : nat) :
  (n ≤ length ids)%nat →
  omap (λ '(i, is_checked),
          if is_checked && bool_decide (i < length ids)%nat
          then ids !! i else None)
       (zip (seq 0 n) (replicate n true)) = take n ids.
Proof.
  induction n as [|n IH]; intros Hn; [done|].
  rewrite seq_S, replicate_S_end. cbn [Nat.add].
  rewrite zip_with_app by (by rewrite length_seq, length_replicate).
  rewrite omap_app, IH by lia. cbn.
  rewrite bool_decide_true by lia.
  destruct (lookup_lt_is_Some_2 ids n) as [x Hx]; [lia|].
  rewrite Hx. by rewrite (take_S_r _ _ x).
Qed.

Lemma checked_all (ids : list Z) :
  checked_page_indices (replicate (length ids) true) ids = ids.
Proof.
  unfold checked_page_indices, Py.enumerate. rewrite length_replicate.
  rewrite checked_prefix by done. by rewrite take_ge.
Qed.

(** X3.  Selecting every page, as the Select All button and the upload do
    ([list(range(total_pages))]), makes [extract_selected_pages_survey]
    return, or raise, what [extract_and_merge_survey] does on the document;
    the selection the checkbox callback computes from the all-checked boxes
    is that same list, and Deselect All stores the empty selection. *)
Theorem selecting_every_page_is_the_whole_document (pages_data : list page) :
  merge_selected pages_data (py_range (length pages_data)) = merge_all pages_data ∧
  (select_deselect_all (Some "select-all-btn") pages_data).2 =
    set_to (py_range (length pages_data)) ∧
  update_page_selection_from_checkboxes
    (replicate (length pages_data) true) (py_range (length pages_data))
    pages_data = py_range (length pages_data) ∧
  (select_deselect_all (Some "deselect-all-btn") pages_data).2 = set_to [].
Proof.
  split; [|split; [|split]].
  - unfold extract_selected_pages_survey, selected_loop, extract_and_merge_survey,
      merge_all_loop, py_range.
    pose proof (range_loop pages_data [] init_state) as H. cbn in H.
    by rewrite H.
  - unfold select_deselect_all. by destruct pages_data.
  - unfold update_page_selection_from_checkboxes.
    destruct pages_data as [|p ps]; [done|]. cbn [Py.truthy negb].
    assert (length (p :: ps) = length (py_range (length (p :: ps)))) as Hlen.
    { unfold py_range. by rewrite length_fmap, length_seq. }
    rewrite Hlen at 1. rewrite checked_all.
    apply sorted_ints_of_sorted, py_range_sorted.
  - unfold select_deselect_all. by destruct pages_data.
Qed.

End SelectionEdges.

(** ** The shape of the returned record *)

Section RecordShape.

Context {page polygon : Type}.
Variable detect_and_ocr : page → list (polygon * string).
Variable text_to_llm : string → option structured.

Abbreviation outcome := (page_outcome detect_and_ocr text_to_llm).
Abbreviation merge_all := (extract_and_merge_survey detect_and_ocr text_to_llm).
Abbreviation merge_selected :=
  (extract_selected_pages_survey detect_and_ocr text_to_llm).

Lemma merge_all_returns images merged :
  merge_all images = Ok merged →
  Forall (λ p, page_ok (outcome p)) images ∧
  merged = merged_record (outcome <$> images).
Proof.
  intros Hrun.
  assert (Forall (λ p, page_ok (outcome p)) images) as Hok.
  { unfold extract_and_merge_survey, merge_all_loop in Hrun.
    destruct (for_in images _ _) as [st|] eqn:E; [|done].
    by eapply process_pages_ok. }
  split; [done|]. rewrite extract_and_merge_survey_run in Hrun by done.
  by injection Hrun.
Qed.

Lemma merge_selected_returns pages_data sel merged :
  merge_selected pages_data sel = Ok merged →
  merged = merged_record (outcome <$> selected_pages pages_data sel).
Proof.
  intros Hrun.
  assert (indices_ok pages_data sel ∧
          Forall (λ p, page_ok (outcome p)) (selected_pages pages_data sel))
    as [Hidx Hok].
  { unfold extract_selected_pages_survey, selected_loop in Hrun.
    destruct (for_in sel _ _) as [st|] eqn:E; [|done].
    by eapply selected_loop_ok. }
  rewrite extract_selected_pages_survey_run in Hrun by done.
  by injection Hrun.
Qed.

Lemma filter_tabulate_keys_sublist (P : string * pyval → bool) ks g :
  (List.filter P (tabulate ks g)).*1 `sublist_of` ks.
Proof.
  induction ks as [|k ks IH]; [done|].
  change (tabulate (k :: ks) g) with ((k, g k) :: tabulate ks g).
  cbn [List.filter]. destruct (P (k, g k)); cbn [fmap list_fmap fst].
  - by apply sublist_skip.
  - by apply sublist_cons.
Qed.

Lemma merged_record_keys_sublist os :
  (merged_record os).*1 `sublist_of` metadata_fields ++ ["survey_points"].
Proof.
  unfold merged_record. destruct (Py.truthy _).
  - rewrite fmap_app. apply sublist_app; [|done].
    apply filter_tabulate_keys_sublist.
  - apply sublist_inserts_r, filter_tabulate_keys_sublist.
Qed.

(** X6.  Whenever either function returns, the keys of the record come in
    one fixed order, that of [metadata_fields] followed by
    ["survey_points"], whatever the page order, and no key comes twice. *)
Theorem returned_keys_are_in_fixed_order
    (images pages_data : list page) (sel : list Z) (merged : pydict) :
  merge_all images = Ok merged ∨ merge_selected pages_data sel = Ok merged →
  merged.*1 `sublist_of` metadata_fields ++ ["survey_points"] ∧
  NoDup merged.*1.
Proof.
  intros Hrun.
  assert (∃ os, merged = merged_record os) as [os ->].
  { destruct Hrun as [H|H].
    - apply merge_all_returns in H as [_ ->]. by eexists.
    - apply merge_selected_returns in H as ->. by eexists. }
  split; [apply merged_record_keys_sublist|].
  eapply sublist_NoDup; [|apply merged_record_keys_sublist].
  apply (bool_decide_unpack _). by vm_compute.
Qed.

(** X7.  Merging a document made of two parts composes the merges of the
    parts: each metadata field is that of the first part when it has one
    and that of the second part otherwise, and the points are those of the
    first part followed by those of the second. *)
Theorem merge_of_two_parts (first second : list page) (merged : pydict) :
  merge_all (first ++ second) = Ok merged →
  ∃ merged1 merged2 points1 points2,
    merge_all first = Ok merged1 ∧ merge_all second = Ok merged2 ∧
    (∀ f, f ∈ metadata_fields →
          Py.lookup f merged =
          match Py.lookup f merged1 with
          | Some v => Some v
          | None => Py.lookup f merged2
          end) ∧
    survey_points_of merged1 = VList points1 ∧
    survey_points_of merged2 = VList points2 ∧
    survey_points_of merged = VList (points1 ++ points2).
Proof.
  intros Hrun. apply merge_all_returns in Hrun as [Hok ->].
  apply Forall_app in Hok as [Hok1 Hok2].
  exists (merged_record (outcome <$> first)), (merged_record (outcome <$> second)).
  eexists _, _.
  rewrite !extract_and_merge_survey_run by done.
  split; [done|]. split; [done|]. split.
  - intros f Hf. rewrite !lookup_merged_record_field by done.
    by rewrite fmap_app, first_provided_app.
  - rewrite !survey_points_of_merged_record.
    split; [done|]. split; [done|].
    by rewrite !fmap_app, concat_app, fmap_app.
Qed.

(** X8.  The merger loses no field of the schema: for a document of one
    page whose outcome is a model instance, every field the instance dumps
    with a value other than [None] and [""], ["survey_points"] apart, is in
    the record with that value, and the record's points are the instance's
    points, dumped. *)
Theorem single_model_page_keeps_every_field (p : page) (s : DirectionalSurvey) :
  outcome p = Model s →
  ∃ merged,
    merge_all [p] = Ok merged ∧
    (∀ k v, (k, v) ∈ model_dump s → k ≠ "survey_points" →
            Py.in_none_empty v = false → Py.lookup k merged = Some v) ∧
    survey_points_of merged = VList (point_dump <$> survey_points s).
Proof.
  intros Hout.
  rewrite extract_and_merge_survey_run by (repeat constructor; by rewrite Hout).
  eexists. split; [done|]. cbn [fmap list_fmap]. rewrite Hout. split.
  - intros k v Hin Hk Hv.
    assert (k ∈ metadata_fields ∧ Py.lookup k (model_dump s) = Some v) as [Hf Hl].
    { unfold model_dump in *.
      repeat (apply elem_of_cons in Hin as [Hin|Hin];
              [injection Hin as -> ->;
               first [done | split; [apply (bool_decide_unpack _); by vm_compute
                                    | reflexivity]]|]).
      by apply elem_of_nil in Hin. }
    rewrite lookup_merged_record_field by done.
    cbn [first_provided]. unfold provided, Py.get.
    change (page_metadata (Model s)) with (model_dump s).
    rewrite Hl. change (default VNone (Some v)) with v. by rewrite Hv.
  - rewrite survey_points_of_merged_record. cbn [fmap list_fmap concat].
    change (page_points (Model s)) with (SPObj <$> survey_points s).
    rewrite app_nil_r. f_equal. rewrite <- list_fmap_compose. done.
Qed.

End RecordShape.

(** ** The OCR text *)

Section TextFacts.

Lemma append_assoc (a b c : string) :
  String.append (String.append a b) c = String.append a (String.append b c).
Proof.
  induction a as [|x a IH]; [done|].
  change (String x (String.append (String.append a b) c) =
          String x (String.append a (String.append b c))).
  by rewrite IH.
Qed.

Lemma concat_app_texts (sep : string) (a b : list string) :
  a ≠ [] → b ≠ [] →
  String.concat sep (a ++ b) =
  String.append (String.concat sep a) (String.append sep (String.concat sep b)).
Proof.
  intros Ha Hb. induction a as [|x a IH]; [done|].
  destruct a as [|y a].
  - destruct b as [|z b]; [done|]. reflexivity.
  - change (String.concat sep ((x :: y :: a) ++ b))
      with (String.append x (String.append sep (String.concat sep ((y :: a) ++ b)))).
    rewrite IH by done.
    change (String.concat sep (x :: y :: a))
      with (String.append x (String.append sep (String.concat sep (y :: a)))).
    by rewrite !append_assoc.
Qed.

(** X9.  The text of two non-empty runs of blocks, one after the other, is
    the text of the first, a newline, and the text of the second; the
    polygons play no part. *)
Theorem merged_text_of_appended_blocks {P : Type} (a b : list (P * string)) :
  a ≠ [] → b ≠ [] →
  merge_text_blocks (a ++ b) =
  String.append (merge_text_blocks a)
    (String.append newline (merge_text_blocks b)).
Proof.
  intros Ha Hb. unfold merge_text_blocks. rewrite fmap_app.
  apply concat_app_texts.
  - by destruct a.
  - by destruct b.
Qed.

End TextFacts.

(** ** The metadata form *)

Section FormFacts.

Variable builtins : float_builtins.

(** What the loop of [update_metadata] makes of a dict. *)
Abbreviation filled d form_values :=
  (fold_left (λ d kv, Py.setitem kv.1 kv.2 d) (zip form_keys form_values) d).

Lemma fill_dict (kvs : list (string * pyval)) : ∀ d,
  for_in kvs (λ survey kv, py_setitem kv.1 kv.2 survey) (VDict d) =
  Ok (VDict (fold_left (λ d kv, Py.setitem kv.1 kv.2 d) kvs d)).
Proof. induction kvs as [|kv kvs IH]; intros d; cbn; [done|]. apply IH. Qed.

Lemma lookup_fill_other (ks : list string) : ∀ vs d k,
  k ∉ ks →
  Py.lookup k (fold_left (λ d kv, Py.setitem kv.1 kv.2 d) (zip ks vs) d) =
  Py.lookup k d.
Proof.
  induction ks as [|k0 ks IH]; intros vs d k Hk; [done|].
  destruct vs as [|v0 vs]; [done|]. cbn.
  apply not_elem_of_cons in Hk as [Hne Hk].
  rewrite IH by done. by apply lookup_setitem_ne.
Qed.

Lemma lookup_fill_at (ks : list string) : ∀ vs d i k v,
  NoDup ks → ks !! i = Some k → vs !! i = Some v →
  Py.lookup k (fold_left (λ d kv, Py.setitem kv.1 kv.2 d) (zip ks vs) d) =
  Some v.
Proof.
  induction ks as [|k0 ks IH]; intros vs d i k v Hnd Hk Hv; [done|].
  destruct vs as [|v0 vs]; [by destruct i|]. cbn.
  apply NoDup_cons in Hnd as [Hk0 Hnd]. destruct i as [|i]; cbn in *.
  - injection Hk as <-. injection Hv as <-.
    rewrite lookup_fill_other by done. apply lookup_setitem_eq.
  - by eapply IH.
Qed.

Lemma form_keys_NoDup : NoDup form_keys.
Proof. apply (bool_decide_unpack _). by vm_compute. Qed.

Lemma update_metadata_store n d form_values out :
  n ≠ 0 → d ≠ [] →
  update_metadata builtins (Some n) (VDict d) form_values = Ok out →
  meta_survey out = set_to (VDict (filled d form_values)) ∧
  meta_color out = set_to "info".
Proof.
  intros Hn Hd. unfold update_metadata.
  assert ((n =? 0) = false) as -> by (by apply Z.eqb_neq).
  assert (Py.truth (VDict d) = true) as -> by (by destruct d).
  cbn [negb orb]. rewrite fill_dict. cbn [mbind result_bind].
  destruct (survey_table _ _) as [table|]; cbn [mbind result_bind]; [|done].
  by intros [= <-].
Qed.

(** X10.  [update_metadata] on a non-empty record stores each of the
    sixteen form keys with the form value given for it, as it is, [None]
    and [""] included, and leaves every other key, ["survey_points"] among
    them, as it was. *)
Theorem update_metadata_writes_the_form_as_given
    (n : Z) (d : pydict) (form_values : list pyval) (out : metadata_outputs) :
  n ≠ 0 → d ≠ [] →
  update_metadata builtins (Some n) (VDict d) form_values = Ok out →
  ∃ d', meta_survey out = set_to (VDict d') ∧
        (∀ i k v, form_keys !! i = Some k → form_values !! i = Some v →
                  Py.lookup k d' = Some v) ∧
        (∀ k, k ∉ form_keys → Py.lookup k d' = Py.lookup k d) ∧
        Py.lookup "survey_points" d' = Py.lookup "survey_points" d.
Proof.
  intros Hn Hd Hrun.
  destruct (update_metadata_store _ _ _ _ Hn Hd Hrun) as [Hs _].
  eexists. split; [exact Hs|]. split; [|split].
  - intros i k v Hk Hv. eapply lookup_fill_at; [apply form_keys_NoDup|done..].
  - intros k Hk. by apply lookup_fill_other.
  - apply lookup_fill_other. apply (bool_decide_unpack _). by vm_compute.
Qed.

(** X11.  Feeding [update_metadata] the form values [process_selected_pages]
    showed for a non-empty record, untouched, keeps every key the record
    had with its value and adds each form key it did not have with the
    value [""]. *)
Theorem update_with_untouched_form
    (n : Z) (survey : pydict) (out : metadata_outputs) :
  n ≠ 0 → survey ≠ [] →
  update_metadata builtins (Some n) (VDict survey)
    (process_form_values survey) = Ok out →
  ∃ d', meta_survey out = set_to (VDict d') ∧
        ∀ k, Py.lookup k d' =
             match Py.lookup k survey with
             | Some v => Some v
             | None => if decide (k ∈ form_keys) then Some (VStr "") else None
             end.
Proof.
  intros Hn Hd Hrun.
  destruct (update_metadata_store _ _ _ _ Hn Hd Hrun) as [Hs _].
  eexists. split; [exact Hs|]. intros k.
  destruct (decide (k ∈ form_keys)) as [Hk|Hk].
  - apply list_elem_of_lookup in Hk as [i Hi].
    rewrite (lookup_fill_at _ _ _ i k (Py.get_default k (VStr "") survey)).
    + unfold Py.get_default. by destruct (Py.lookup k survey).
    + apply form_keys_NoDup.
    + done.
    + unfold process_form_values. rewrite list_lookup_fmap, Hi. cbn.
      by destruct survey.
  - rewrite lookup_fill_other by done. by destruct (Py.lookup k survey).
Qed.

(** X12.  A form whose uwi field is [None] leaves a record with uwi
    [None]: on it computing the file name in
    [write_to_geodatabase_via_file] raises AttributeError (which that
    function reports as a failure), while the file name of [download_csv]
    falls back to ["survey"]. *)
Theorem cleared_uwi_breaks_the_geodatabase_name
    (n : Z) (d : pydict) (form_values : list pyval) (out : metadata_outputs) :
  n ≠ 0 → d ≠ [] → form_values !! 0%nat = Some VNone →
  update_metadata builtins (Some n) (VDict d) form_values = Ok out →
  ∃ d', meta_survey out = set_to (VDict d') ∧
        Py.lookup "uwi" d' = Some VNone ∧
        geodatabase_uwi d' = Raise AttributeError ∧
        csv_safe_uwi d' = Ok "survey".
Proof.
  intros Hn Hd Hv Hrun.
  destruct (update_metadata_store _ _ _ _ Hn Hd Hrun) as [Hs _].
  eexists. split; [exact Hs|].
  assert (Py.lookup "uwi" (filled d form_values) = Some VNone) as Hl.
  { eapply (lookup_fill_at _ _ _ 0%nat); [apply form_keys_NoDup|done..]. }
  split; [exact Hl|].
  unfold geodatabase_uwi, csv_safe_uwi, Py.get_default. by rewrite Hl.
Qed.

End FormFacts.

(** ** The exports *)

Section ExportFacts.

Lemma append_missing (fields : list string) : ∀ columns,
  NoDup fields →
  fold_left (λ columns field,
               if bool_decide (field ∈ columns) then columns
               else columns ++ [field]) fields columns =
  columns ++ List.filter (λ f, negb (bool_decide (f ∈ columns))) fields.
Proof.
  induction fields as [|f fields IH]; intros columns Hnd; cbn.
  - by rewrite app_nil_r.
  - apply NoDup_cons in Hnd as [Hf Hnd]. rewrite IH by done.
    destruct (bool_decide (f ∈ columns)) eqn:E; cbn; [done|].
    rewrite <- app_assoc. cbn. do 2 f_equal.
    apply filter_ext_in. intros g Hg. f_equal.
    apply bool_decide_ext. rewrite elem_of_app, list_elem_of_singleton.
    split; [|by left]. intros [?| ->]; [done|].
    by apply list_elem_of_In in Hg.
Qed.

Lemma filter_all {A : Type} (f : A → bool) (l : list A) :
  (∀ x, x ∈ l → f x = true) → List.filter f l = l.
Proof.
  induction l as [|x l IH]; intros H; cbn; [done|].
  rewrite (H x) by left. f_equal. apply IH. intros y Hy. apply H. by right.
Qed.

Lemma other_columns_all (df_columns : list string) :
  List.filter (λ col, bool_decide (col ∈ df_columns)) desired_columns = [] →
  List.filter (λ col, negb (bool_decide (col ∈ desired_columns))) df_columns
  = df_columns.
Proof.
  intros He. apply filter_all. intros c Hc.
  apply negb_true_iff, bool_decide_eq_false. intros Hd.
  assert (In c (List.filter (λ col, bool_decide (col ∈ df_columns))
                  desired_columns)) as Hin.
  { apply filter_In. split; [by apply list_elem_of_In|].
    by apply bool_decide_eq_true. }
  by rewrite He in Hin.
Qed.

(** X13.  The columns of the CSV: when the points have a ["uwi"] column the
    export raises; otherwise they are ["uwi"], the canonical columns that
    exist in canonical order, the other point columns in their order, and
    the metadata fields that are not point columns.  With all six canonical
    columns they start with uwi, md, inc, azi, tvd, ns, ew. *)
Theorem csv_column_order (df_columns : list string) :
  csv_columns df_columns =
    (if bool_decide ("uwi" ∈ df_columns) then None
     else Some ("uwi" ::
                List.filter (λ col, bool_decide (col ∈ df_columns)) desired_columns ++
                List.filter (λ col, negb (bool_decide (col ∈ desired_columns)))
                  df_columns ++
                List.filter (λ f, negb (bool_decide (f ∈ df_columns)))
                  csv_metadata_fields)) ∧
  ("uwi" ∉ df_columns → Forall (λ col, col ∈ df_columns) desired_columns →
   ∃ rest, csv_columns df_columns =
           Some (["uwi"; "md"; "inc"; "azi"; "tvd"; "ns"; "ew"] ++ rest)).
Proof.
  set (existing := List.filter (λ col, bool_decide (col ∈ df_columns))
                     desired_columns).
  set (other := List.filter (λ col, negb (bool_decide (col ∈ desired_columns)))
                  df_columns).
  assert (∀ c, c ∈ existing ++ other ↔ c ∈ df_columns) as Hmem.
  { intros c. rewrite elem_of_app. unfold existing, other.
    rewrite !list_elem_of_In, !filter_In, <- !list_elem_of_In.
    rewrite bool_decide_eq_true, negb_true_iff, bool_decide_eq_false.
    destruct (decide (c ∈ desired_columns)); naive_solver. }
  assert (csv_columns df_columns =
          if bool_decide ("uwi" ∈ df_columns) then None
          else Some ("uwi" :: existing ++ other ++
                     List.filter (λ f, negb (bool_decide (f ∈ df_columns)))
                       csv_metadata_fields)) as Hmain.
  { unfold csv_columns. fold existing. fold other.
    assert ((if Py.truthy existing then existing ++ other else df_columns)
            = existing ++ other) as ->.
    { destruct existing eqn:E; [|done]. cbn. symmetry.
      by apply other_columns_all. }
    rewrite (bool_decide_ext _ _ (Hmem "uwi")).
    destruct (bool_decide ("uwi" ∈ df_columns)); [done|].
    rewrite append_missing by (apply (bool_decide_unpack _); by vm_compute).
    cbn [app]. rewrite <- app_assoc. do 4 f_equal.
    apply filter_ext_in. intros f Hf. f_equal. apply bool_decide_ext.
    rewrite elem_of_cons, Hmem. split; [|by right].
    intros [->|?]; [|done]. exfalso. revert Hf.
    apply (bool_decide_unpack _). by vm_compute. }
  split; [exact Hmain|].
  intros Hu Hall. rewrite Hmain, bool_decide_false by done.
  assert (existing = desired_columns) as ->.
  { unfold existing. apply filter_all. intros c Hc.
    apply bool_decide_eq_true. rewrite Forall_forall in Hall. by apply Hall. }
  by eexists.
Qed.

Lemma py_replace_length old new s :
  String.length (py_replace old new s) = String.length s.
Proof. induction s as [|c s IH]; cbn; [done|]. by rewrite IH. Qed.

Lemma py_replace_chars old new s c :
  c ∈ String.list_ascii_of_string (py_replace old new s) →
  c = new ∨ (c ≠ old ∧ c ∈ String.list_ascii_of_string s).
Proof.
  induction s as [|x s IH]; cbn; [by intros ?%elem_of_nil|].
  rewrite !elem_of_cons. intros [->|Hin].
  - destruct (decide (x = old)); [by left|right]. split; [done|by left].
  - destruct (IH Hin) as [?|[? ?]]; [by left|right]. split; [done|by right].
Qed.

Lemma safe_name_chars s c :
  c ∈ String.list_ascii_of_string (safe_name s) →
  c ≠ ("/" : ascii) ∧ c ≠ ("\" : ascii) ∧ c ≠ (" " : ascii).
Proof.
  unfold safe_name. intros H.
  apply py_replace_chars in H as [->|[H1 H]]; [done|].
  apply py_replace_chars in H as [->|[H2 H]]; [done|].
  apply py_replace_chars in H as [->|[H3 H]]; done.
Qed.

(** X14.  Whenever the uwi part of an export file name is computed, it has
    no slash, no backslash and no space; on a string uwi it has the length
    of the uwi. *)
Theorem export_names_have_no_separator (survey : pydict) (name : string) :
  geodatabase_uwi survey = Ok name ∨ csv_safe_uwi survey = Ok name →
  (∀ c, c ∈ String.list_ascii_of_string name →
        c ≠ ("/" : ascii) ∧ c ≠ ("\" : ascii) ∧ c ≠ (" " : ascii)) ∧
  (∀ s, Py.lookup "uwi" survey = Some (VStr s) → s ≠ "" →
        String.length name = String.length s).
Proof.
  intros Hrun.
  assert (name = "survey" ∨ ∃ s, name = safe_name s ∧
            (∀ s', Py.lookup "uwi" survey = Some (VStr s') → s' ≠ "" → s' = s))
    as [->|(s & -> & Hs)].
  { unfold geodatabase_uwi, csv_safe_uwi, Py.get_default in Hrun.
    destruct (Py.lookup "uwi" survey) as [v|]; cbn in Hrun.
    - destruct Hrun as [H|H].
      + destruct v; try done. injection H as <-. right. eexists.
        split; [done|]. by intros s' [= ->].
      + destruct (Py.truth v) eqn:E.
        * destruct v; try done. injection H as <-. right. eexists.
          split; [done|]. by intros s' [= ->].
        * injection H as <-. left. done.
    - destruct Hrun as [H|H]; injection H as <-.
      + right. exists "unknown". by split.
      + right. exists "survey". by split. }
  - split.
    + intros c Hc. revert c Hc. apply Forall_forall.
      apply (bool_decide_unpack _). by vm_compute.
    + intros s Hl Hne. unfold csv_safe_uwi, geodatabase_uwi, Py.get_default in Hrun.
      rewrite Hl in Hrun. cbn in Hrun.
      destruct Hrun as [H|H].
      * injection H as H. rewrite <- H. unfold safe_name.
        by rewrite !py_replace_length.
      * rewrite bool_decide_false in H by done. cbn in H. injection H as H.
        rewrite <- H. unfold safe_name. by rewrite !py_replace_length.
  - split.
    + intros c. apply safe_name_chars.
    + intros s' Hl Hne. rewrite <- (Hs s' Hl Hne). unfold safe_name.
      by rewrite !py_replace_length.
Qed.

End ExportFacts.

(** ** A record without points on the screen *)

Section WriteBack.

Context {page polygon : Type}.
Variable detect_and_ocr : page → list (polygon * string).
Variable text_to_llm : string → option structured.
Variable builtins : float_builtins.
Variable exn_str : exn → string.

(** X15.  When the merged record has metadata and no points, the click
    that shows it writes the empty list to the table, and the write-back
    of [update_survey_from_table] adds the key ["survey_points"] with the
    empty list to the stored record, which the merged record never has. *)
Theorem record_without_points_gets_an_empty_list
    (n : Z) (pages_data : list page) (selected : list Z) (s : stores)
    (survey : pydict) :
  n ≠ 0 → pages_data ≠ [] → selected ≠ [] →
  extract_selected_pages_survey detect_and_ocr text_to_llm pages_data selected
    = Ok survey →
  survey ≠ [] → Py.lookup "survey_points" survey = None →
  click_process_selected detect_and_ocr text_to_llm builtins exn_str
    (Some n) pages_data selected s =
  Stores (VDict (survey ++ [("survey_points", VList [])])) (VList []).
Proof.
  intros Hn Hp Hs Hrun Hne Hl.
  assert (process_selected_pages detect_and_ocr text_to_llm builtins
            exn_str (Some n) pages_data selected =
          ProcessOutputs (set_to (VDict survey)) (set_to []) (set_to (VList [])))
    as Hout.
  { unfold process_selected_pages.
    assert ((n =? 0) = false) as -> by (by apply Z.eqb_neq).
    destruct pages_data; [done|]. destruct selected; [done|].
    cbn [negb orb Py.truthy]. rewrite Hrun. cbn [mbind result_bind].
    unfold survey_table, Py.contains. rewrite Hl.
    by rewrite andb_false_r. }
  unfold click_process_selected. rewrite Hout.
  cbn [out_survey out_table_data write survey_store survey_table_data].
  unfold update_survey_from_table. cbn [Py.truth].
  destruct survey as [|kv survey]; [done|]. cbn [Py.truthy negb andb].
  rewrite setitem_fresh; [done|]. by apply lookup_None_keys.
Qed.

End WriteBack.

(** ** The further properties on the sample document *)

Lemma out_of_range_witness :
  extract_selected_pages_survey sample_ocr sample_llm sample_pages [0; 5; 1] =
  extract_selected_pages_survey sample_ocr sample_llm sample_pages [0; 1] ∧
  ∀ st, selected_loop sample_ocr sample_llm sample_pages [0; 5; 1] = Ok st →
        range_warnings st = [5].
Proof.
  exact (out_of_range_indices_are_skipped sample_ocr sample_llm sample_pages
           [0; 5; 1]).
Defined.

Lemma index_below_range_witness :
  - 4 < - Z.of_nat (length sample_pages) ∧
  extract_selected_pages_survey sample_ocr sample_llm sample_pages
    ([0] ++ - 4 :: [1]) = Raise IndexError.
Proof.
  assert (- 4 < - Z.of_nat (length sample_pages)) as Hi by (cbn; lia).
  split; [exact Hi|].
  eapply (index_below_range_raises sample_ocr sample_llm sample_pages [0] [1]
            (- 4) _ Hi).
  vm_compute. reflexivity.
Defined.

Lemma non_iterable_points_witness :
  extract_and_merge_survey sample_ocr
    (λ _, Some (Plain (VDict [("survey_points", VNone)]))) ([] ++ "P1" :: ["P2"])
  = Raise TypeError.
Proof.
  eapply (non_iterable_points_abort_the_merge sample_ocr
            (λ _, Some (Plain (VDict [("survey_points", VNone)])))
            [] ["P2"] "P1" [("survey_points", VNone)] VNone init_state);
    reflexivity.
Defined.

Lemma returned_keys_witness :
  ∃ merged,
    extract_and_merge_survey sample_ocr sample_llm sample_pages = Ok merged ∧
    NoDup merged.*1.
Proof.
  eexists. split; [vm_compute; reflexivity|].
  eapply (returned_keys_are_in_fixed_order sample_ocr sample_llm
            sample_pages sample_pages []).
  left. vm_compute. reflexivity.
Defined.

Lemma merge_of_two_parts_witness :
  ∃ merged points1 points2,
    extract_and_merge_survey sample_ocr sample_llm (["P1"; "P3"] ++ ["P2"])
      = Ok merged ∧
    survey_points_of merged = VList (points1 ++ points2).
Proof.
  assert (∃ merged,
            extract_and_merge_survey sample_ocr sample_llm (["P1"; "P3"] ++ ["P2"])
            = Ok merged) as [merged Hrun].
  { eexists. vm_compute. reflexivity. }
  destruct (merge_of_two_parts sample_ocr sample_llm ["P1"; "P3"] ["P2"]
              merged Hrun)
    as (m1 & m2 & points1 & points2 & _ & _ & _ & _ & _ & Hp).
  by exists merged, points1, points2.
Defined.

Lemma single_model_page_witness :
  page_outcome sample_ocr sample_llm "P2" = Model P2 ∧
  ∃ merged,
    extract_and_merge_survey sample_ocr sample_llm ["P2"] = Ok merged ∧
    Py.lookup "uwi" merged = Some (VStr "XYZ").
Proof.
  split; [reflexivity|].
  destruct (single_model_page_keeps_every_field sample_ocr sample_llm "P2" P2)
    as (merged & Hrun & Hfields & _); [reflexivity|].
  exists merged. split; [exact Hrun|].
  apply Hfields; [|done|done]. left.
Defined.

Lemma merged_text_witness :
  merge_text_blocks ([(tt, "MD INC")] ++ [(tt, "100 0.5"); (tt, "200 1.5")]) =
  String.append "MD INC"
    (String.append newline (merge_text_blocks [(tt, "100 0.5"); (tt, "200 1.5")])).
Proof.
  exact (merged_text_of_appended_blocks [(tt, "MD INC")]
           [(tt, "100 0.5"); (tt, "200 1.5")]
           ltac:(discriminate) ltac:(discriminate)).
Defined.

Lemma update_metadata_witness :
  ∃ out d',
    update_metadata sample_builtins (Some 1) (VDict [("uwi", VStr "ABC")])
      [VNone; VStr "Acme"] = Ok out ∧
    meta_survey out = set_to (VDict d') ∧
    Py.lookup "uwi" d' = Some VNone ∧
    Py.lookup "operator" d' = Some (VStr "Acme").
Proof.
  assert (∃ out,
            update_metadata sample_builtins (Some 1)
              (VDict [("uwi", VStr "ABC")]) [VNone; VStr "Acme"] = Ok out)
    as [out Hrun].
  { eexists. vm_compute. reflexivity. }
  destruct (update_metadata_writes_the_form_as_given sample_builtins 1
              [("uwi", VStr "ABC")] [VNone; VStr "Acme"] out)
    as (d' & Hs & Hform & _); [lia|done|exact Hrun|].
  exists out, d'. split; [exact Hrun|]. split; [exact Hs|]. split.
  - by apply (Hform 0%nat).
  - by apply (Hform 1%nat).
Defined.

Lemma untouched_form_witness :
  ∃ out d',
    update_metadata sample_builtins (Some 1) (VDict [("uwi", VStr "ABC")])
      (process_form_values [("uwi", VStr "ABC")]) = Ok out ∧
    meta_survey out = set_to (VDict d') ∧
    Py.lookup "uwi" d' = Some (VStr "ABC") ∧
    Py.lookup "operator" d' = Some (VStr "").
Proof.
  assert (∃ out,
            update_metadata sample_builtins (Some 1)
              (VDict [("uwi", VStr "ABC")])
              (process_form_values [("uwi", VStr "ABC")]) = Ok out)
    as [out Hrun].
  { eexists. vm_compute. reflexivity. }
  destruct (update_with_untouched_form sample_builtins 1
              [("uwi", VStr "ABC")] out)
    as (d' & Hs & Hl); [lia|done|exact Hrun|].
  exists out, d'. split; [exact Hrun|]. split; [exact Hs|].
  split; rewrite Hl; reflexivity.
Defined.

Lemma cleared_uwi_witness :
  ∃ out d',
    update_metadata sample_builtins (Some 1) (VDict [("uwi", VStr "ABC")])
      [VNone] = Ok out ∧
    meta_survey out = set_to (VDict d') ∧
    geodatabase_uwi d' = Raise AttributeError.
Proof.
  assert (∃ out,
            update_metadata sample_builtins (Some 1)
              (VDict [("uwi", VStr "ABC")]) [VNone] = Ok out)
    as [out Hrun].
  { eexists. vm_compute. reflexivity. }
  destruct (cleared_uwi_breaks_the_geodatabase_name sample_builtins 1
              [("uwi", VStr "ABC")] [VNone] out)
    as (d' & Hs & _ & Hg & _); [lia|done|reflexivity|exact Hrun|].
  by exists out, d'.
Defined.

Lemma csv_column_order_witness :
  "uwi" ∉ ["ew"; "dls"; "ns"; "tvd"; "azi"; "inc"; "md"] ∧
  ∃ rest,
    csv_columns ["ew"; "dls"; "ns"; "tvd"; "azi"; "inc"; "md"] =
    Some (["uwi"; "md"; "inc"; "azi"; "tvd"; "ns"; "ew"] ++ rest).
Proof.
  assert ("uwi" ∉ ["ew"; "dls"; "ns"; "tvd"; "azi"; "inc"; "md"]) as Hu.
  { apply (bool_decide_unpack _). by vm_compute. }
  split; [exact Hu|].
  destruct (csv_column_order ["ew"; "dls"; "ns"; "tvd"; "azi"; "inc"; "md"])
    as [_ H].
  apply H; [exact Hu|]. apply (bool_decide_unpack _). by vm_compute.
Defined.

Lemma export_name_witness :
  geodatabase_uwi [("uwi", VStr "42/501 A")] = Ok "42_501_A" ∧
  String.length "42_501_A" = String.length "42/501 A".
Proof.
  split; [reflexivity|].
  destruct (export_names_have_no_separator [("uwi", VStr "42/501 A")] "42_501_A")
    as [_ H]; [by left|].
  by apply H.
Defined.

Lemma record_without_points_witness :
  extract_selected_pages_survey sample_ocr sample_llm ["P1"] [0]
    = Ok [("uwi", VStr "ABC")] ∧
  click_process_selected sample_ocr sample_llm sample_builtins sample_exn_str
    (Some 1) ["P1"] [0] (Stores VNone VNone) =
  Stores (VDict [("uwi", VStr "ABC"); ("survey_points", VList [])]) (VList []).
Proof.
  assert (extract_selected_pages_survey sample_ocr sample_llm ["P1"] [0]
          = Ok [("uwi", VStr "ABC")]) as Hrun by (vm_compute; reflexivity).
  split; [exact Hrun|].
  apply (record_without_points_gets_an_empty_list sample_ocr sample_llm
           sample_builtins sample_exn_str 1 ["P1"] [0] (Stores VNone VNone)
           [("uwi", VStr "ABC")]); done.
Defined.
